(** * dephell: the egg-info converter (PKG-INFO / requires.txt)

    A shallow embedding of [dephell/converters/egginfo.py] and of the
    parts of the Python runtime it calls ([str] methods, the header phase
    of [email.parser.Parser], text files), followed by the properties of
    the converter that its specification states.

    Text is a [string] whose characters are read as the code points
    0..255. *)

From Stdlib Require Import Ascii.
From Stdlib Require String.
From stdpp Require Import base option list strings gmap.

Local Open Scope stdpp_scope.

(** ** Python [str] operations used by the converter *)

Module Str.

Definition LF : ascii := "010"%char.
Definition CR : ascii := "013"%char.
Definition TAB : ascii := "009"%char.
Definition nl : string := String LF "".

(** [str.isspace] on one character (code points below 256). *)
Definition isspace (c : ascii) : bool :=
  let n := nat_of_ascii c in
  ((9 <=? n) && (n <=? 13)) || ((28 <=? n) && (n <=? 32))
  || (n =? 133) || (n =? 160).

(** [s.lstrip(chars)] and [s.rstrip(chars)], the character set given as a
    predicate. *)
Fixpoint lstrip_with (p : ascii → bool) (s : string) : string :=
  match s with
  | String c s' => if p c then lstrip_with p s' else s
  | EmptyString => EmptyString
  end.

Fixpoint rstrip_with (p : ascii → bool) (s : string) : string :=
  match s with
  | EmptyString => EmptyString
  | String c s' =>
      match rstrip_with p s' with
      | EmptyString => if p c then EmptyString else String c EmptyString
      | r => String c r
      end
  end.

(** [s.strip()] *)
Definition strip (s : string) : string :=
  rstrip_with isspace (lstrip_with isspace s).

(** [str.lower] on one character (code points below 256). *)
Definition lower_char (c : ascii) : ascii :=
  let n := nat_of_ascii c in
  if ((65 <=? n) && (n <=? 90))
     || ((192 <=? n) && (n <=? 222) && negb (n =? 215))
  then ascii_of_nat (n + 32) else c.

Fixpoint lower (s : string) : string :=
  match s with
  | EmptyString => EmptyString
  | String c s' => String (lower_char c) (lower s')
  end.

(** [s.split()]: the maximal runs of non-whitespace characters. *)
Fixpoint split (s : string) : list string :=
  match s with
  | EmptyString => []
  | String c s' =>
      if isspace c then split s'
      else
        match s' with
        | EmptyString => [String c EmptyString]
        | String c' _ =>
            if isspace c' then String c EmptyString :: split s'
            else
              match split s' with
              | w :: ws => String c w :: ws
              | [] => [String c EmptyString]
              end
        end
  end.

(** [s.split(sep)] for a one-character separator. *)
Fixpoint split_on (sep : ascii) (s : string) : list string :=
  match s with
  | EmptyString => [EmptyString]
  | String c s' =>
      if Ascii.eqb c sep then EmptyString :: split_on sep s'
      else
        match split_on sep s' with
        | w :: ws => String c w :: ws
        | [] => [String c EmptyString]
        end
  end.

(** [sep.join(parts)] *)
Definition join (sep : string) (parts : list string) : string :=
  String.concat sep parts.

(** [s.startswith(p)] *)
Definition startswith (s p : string) : bool := String.prefix p s.

(** [needle in hay] *)
Fixpoint contains (needle hay : string) : bool :=
  if String.prefix needle hay then true
  else
    match hay with
    | EmptyString => false
    | String _ hay' => contains needle hay'
    end.

(** Truth value of a string: [bool(s)]. *)
Definition nonempty (s : string) : bool :=
  match s with EmptyString => false | _ => true end.

(** [a or b] on strings. *)
Definition or_else (a b : string) : string := if nonempty a then a else b.

End Str.


(** ** The header phase of [email.parser.Parser().parsestr]

    The converter reads a message only through [Message.get] and
    [Message.get_all], so the model keeps the header list and drops the
    body.  It follows [email.feedparser] under the default [compat32]
    policy: the text is cut into lines at LF, CR and CRLF (line ends kept),
    header lines are collected up to the first line that does not look like
    a header, and [_parse_headers] folds continuation lines into the value
    of the preceding field. *)

Module Email.

(** One raw header: field name and unfolded value, as [Message._headers]
    stores them. *)
Definition Message : Type := list (string * string).

(** [StringIO(newline='').readlines()] *)
Fixpoint readlines (s : string) : list string :=
  match s with
  | EmptyString => []
  | String c s' =>
      if Ascii.eqb c Str.LF then String c EmptyString :: readlines s'
      else if Ascii.eqb c Str.CR then
        match s' with
        | String c' s'' =>
            if Ascii.eqb c' Str.LF
            then String c (String c' EmptyString) :: readlines s''
            else String c EmptyString :: readlines s'
        | EmptyString => [String c EmptyString]
        end
      else
        match readlines s' with
        | l :: ls => String c l :: ls
        | [] => [String c EmptyString]
        end
  end.

(** A character of the class [[\041-\071\073-\176]]: printable ASCII
    except the space and the colon. *)
Definition header_char (c : ascii) : bool :=
  let n := nat_of_ascii c in
  (33 <=? n) && (n <=? 126) && negb (n =? 58).

(** [[\041-\071\073-\176]*:] at the start of the line. *)
Fixpoint name_then_colon (line : string) : bool :=
  match line with
  | EmptyString => false
  | String c rest =>
      if Ascii.eqb c ":" then true
      else if header_char c then name_then_colon rest
      else false
  end.

Definition is_blank (c : ascii) : bool :=
  Ascii.eqb c " " || Ascii.eqb c Str.TAB.

Definition starts_blank (line : string) : bool :=
  match line with
  | String c _ => is_blank c
  | EmptyString => false
  end.

(** [headerRE.match(line)] with
    [headerRE = ^(From |[\041-\071\073-\176]*:|[\t ])]. *)
Definition headerRE (line : string) : bool :=
  Str.startswith line "From " || name_then_colon line || starts_blank line.

(** The lines [_parsegen] hands to [_parse_headers]: the longest prefix
    of lines that match [headerRE]. *)
Fixpoint header_lines (lines : list string) : list string :=
  match lines with
  | [] => []
  | line :: rest => if headerRE line then line :: header_lines rest else []
  end.

(** [line.split(':', 1)]; a line without colon comes back whole. *)
Fixpoint split_colon (line : string) : string * string :=
  match line with
  | EmptyString => (EmptyString, EmptyString)
  | String c rest =>
      if Ascii.eqb c ":" then (EmptyString, rest)
      else let '(n, v) := split_colon rest in (String c n, v)
  end.

Definition is_eol (c : ascii) : bool :=
  Ascii.eqb c Str.CR || Ascii.eqb c Str.LF.

(** [Compat32.header_source_parse] *)
Definition header_source_parse (sourcelines : list string) : string * string :=
  match sourcelines with
  | [] => (EmptyString, EmptyString)
  | first :: more =>
      let '(name, value) := split_colon first in
      let value := Str.lstrip_with is_blank value +:+ Str.join "" more in
      (name, Str.rstrip_with is_eol value)
  end.

(** The pending field of [_parse_headers]: [lastheader] is non-empty
    exactly when [lastvalue] holds the lines of a field not yet stored. *)
Definition flush (lastheader : string) (lastvalue : list string)
    (headers : Message) : Message :=
  if Str.nonempty lastheader
  then headers ++ [header_source_parse lastvalue]
  else headers.

(** The loop of [FeedParser._parse_headers]; [total] is [len(lines)] and
    [lineno] the index of the first line of [lines]. *)
Fixpoint _parse_headers_loop (total lineno : nat) (lastheader : string)
    (lastvalue : list string) (headers : Message) (lines : list string)
    : Message :=
  match lines with
  | [] => flush lastheader lastvalue headers
  | line :: rest =>
      if starts_blank line then
        if Str.nonempty lastheader
        then _parse_headers_loop total (S lineno) lastheader
               (lastvalue ++ [line]) headers rest
        else _parse_headers_loop total (S lineno) lastheader lastvalue
               headers rest
      else
        let headers := flush lastheader lastvalue headers in
        if Str.startswith line "From " then
          if lineno =? 0
          then _parse_headers_loop total (S lineno) "" [] headers rest
          else if lineno =? total - 1 then headers
          else _parse_headers_loop total (S lineno) "" [] headers rest
        else
          let name := fst (split_colon line) in
          if Str.nonempty name
          then _parse_headers_loop total (S lineno) name [line] headers rest
          else _parse_headers_loop total (S lineno) "" [] headers rest
  end.

Definition _parse_headers (lines : list string) : Message :=
  _parse_headers_loop (length lines) 0 "" [] [] lines.

(** [Parser().parsestr(text)], headers only. *)
Definition parsestr (text : string) : Message :=
  _parse_headers (header_lines (readlines text)).

(** [Message.get(name)]: the first field whose name matches without
    regard to case. *)
Fixpoint get (msg : Message) (name : string) : option string :=
  match msg with
  | [] => None
  | (k, v) :: rest =>
      if String.eqb (Str.lower k) (Str.lower name) then Some v
      else get rest name
  end.

(** [Message.get_all(name)]: every matching field in order, [None] when
    there is none. *)
Definition get_all (msg : Message) (name : string) : option (list string) :=
  match filter (λ kv, String.eqb (Str.lower kv.1) (Str.lower name) = true) msg with
  | [] => None
  | kvs => Some (kvs.*2)
  end.

End Email.


(** ** Errors *)

(** The exceptions the converter lets escape: the two raised by
    [_load_dir] (and [FileNotFoundError] by [open] on a missing file), and
    the one of the requirement grammar. *)
Inductive Error : Type :=
  | FileNotFoundError (msg : string)
  | FileExistsError (msg : string)
  | InvalidRequirement (token : string).

Inductive Result (A : Type) : Type :=
  | Ok (a : A)
  | Raise (e : Error).
Arguments Ok {A} a.
Arguments Raise {A} e.

#[global] Instance Result_ret : MRet Result := λ A a, Ok a.
#[global] Instance Result_bind : MBind Result := λ A B f m,
  match m with
  | Ok a => f a
  | Raise e => Raise e
  end.

(** ** The canonical project model *)

(** Modelled from the spec: [dephell.models.Author] is not among the
    sources; section 3 gives it a required [name] and an optional [mail]
    (absent is the empty string, as [_parse_info] builds it). *)
Module Author.
Record t : Type := mk { name : string; mail : string }.
End Author.

(** A parsed requirement string, as [packaging.requirements.Requirement]
    exposes it: name, extras, version specifier and environment marker
    (the last two empty when absent). *)
Module Requirement.
Record t : Type := mk {
  name : string;
  extras : list string;
  specifier : string;
  marker : string
}.
End Requirement.

(** Modelled from the spec: the [Dependency] records of [dephell.models]
    are not among the sources; section 3 lists these fields, [source]
    being a label of the owning project (its name, section 9). *)
Module Dependency.
Record t : Type := mk {
  name : string;
  extras : list string;
  version : string;
  markers : string;
  source : string
}.

#[global] Instance eq_dec : EqDecision t.
Proof. solve_decision. Defined.

(** The pair a project's dependencies are unique by. *)
Definition key (d : t) : string * list string := (name d, extras d).

(** A dependency without its back-reference. *)
Definition unsourced (d : t) : string * list string * string * string :=
  (name d, extras d, version d, markers d).
End Dependency.

(** Modelled from the spec: [dephell.controllers.Readme] is not among the
    sources; the converter only appends "its rendered form", which the
    record carries as the result of [as_rst()]. *)
Module Readme.
Record t : Type := mk { as_rst : string }.
End Readme.

(** Modelled from the spec: [dephell.models.RootDependency] is not among
    the sources; fields and defaults follow section 3 ([version] defaults
    to ["0.0.0"], every other field to its empty value). *)
Record RootDependency : Type := mkRoot {
  raw_name : string;
  version : string;
  description : string;
  license : string;
  keywords : list string;
  classifiers : list string;
  platforms : list string;
  links : gmap string string;
  authors : list Author.t;
  dependencies : list Dependency.t;
  readme : option Readme.t
}.

(** [RootDependency(raw_name=name)] *)
Definition new_root (name : string) : RootDependency :=
  {| raw_name := name; version := "0.0.0"; description := ""; license := "";
     keywords := []; classifiers := []; platforms := []; links := ∅;
     authors := []; dependencies := []; readme := None |}.

Definition set_links (root : RootDependency) (l : gmap string string) : RootDependency :=
  {| raw_name := raw_name root; version := version root;
     description := description root; license := license root;
     keywords := keywords root; classifiers := classifiers root;
     platforms := platforms root; links := l; authors := authors root;
     dependencies := dependencies root; readme := readme root |}.

Definition set_authors (root : RootDependency) (a : list Author.t) : RootDependency :=
  {| raw_name := raw_name root; version := version root;
     description := description root; license := license root;
     keywords := keywords root; classifiers := classifiers root;
     platforms := platforms root; links := links root; authors := a;
     dependencies := dependencies root; readme := readme root |}.

Definition set_dependencies (root : RootDependency) (d : list Dependency.t) : RootDependency :=
  {| raw_name := raw_name root; version := version root;
     description := description root; license := license root;
     keywords := keywords root; classifiers := classifiers root;
     platforms := platforms root; links := links root; authors := authors root;
     dependencies := d; readme := readme root |}.

(** Modelled from the spec: [RootDependency.attach_dependencies] is not
    among the sources.  Section 3 makes [dependencies] unique by (name,
    extras) with insertion order kept, so a record whose key is already
    present is not added again. *)
Definition attach_one (deps : list Dependency.t) (d : Dependency.t) : list Dependency.t :=
  if bool_decide (Dependency.key d ∈ Dependency.key <$> deps) then deps
  else deps ++ [d].

Definition attach_dependencies (root : RootDependency) (deps : list Dependency.t)
    : RootDependency :=
  set_dependencies root (foldl attach_one (dependencies root) deps).

(** Modelled from the spec: [DependencyMaker.from_requirement] is not among
    the sources.  Section 2: one parsed requirement and its declaring
    project give one or more records, one per extra when the requirement
    names extras, each labelled with its source. *)
Definition from_requirement (source : RootDependency) (req : Requirement.t)
    : list Dependency.t :=
  let record es :=
    Dependency.mk (Requirement.name req) es (Requirement.specifier req)
      (Requirement.marker req) (raw_name source) in
  match Requirement.extras req with
  | [] => [record []]
  | es => (λ e, record [e]) <$> es
  end.

(** ** What the converter takes from outside

    [BaseConverter._get_name] (the spec calls it a best-effort heuristic
    and says no more) and the requirement grammar of [packaging], which
    rejects a string by raising. *)
Class Environment : Type := {
  _get_name : string → string;
  PackagingRequirement : string → option Requirement.t
}.

(** Text files as [open('r').read()] returns them, by path. *)
Abbreviation FileSystem := (gmap string string).

(** [path / name], for a path spelled as [str] gives it and ending in a
    component, as every path handed to [_load_dir] is. *)
Definition joinpath (path name : string) : string := path +:+ "/" +:+ name.

(** [with path.open('r') as stream: stream.read()] *)
Definition read_text (fs : FileSystem) (path : string) : Result string :=
  match fs !! path with
  | Some content => Ok content
  | None => Raise (FileNotFoundError path)
  end.

(** ** [EggInfoConverter] *)

Section EggInfoConverter.
Context {env : Environment}.

(** [lock = False] *)
Definition lock : bool := false.

(** [_get]: a missing, blank or ["UNKNOWN"] value reads as [""]. *)
Definition _get (msg : Email.Message) (name : string) : string :=
  match Email.get msg name with
  | None => ""
  | Some value =>
      if Str.nonempty value then
        let value := Str.strip value in
        if String.eqb value "UNKNOWN" then "" else value
      else ""
  end.

(** [_get_list]: the stripped values of a repeated field, the sentinel
    dropped. *)
Definition _get_list (msg : Email.Message) (name : string) : list string :=
  match Email.get_all msg name with
  | None => []
  | Some values =>
      Str.strip <$>
        filter (λ value, String.eqb (Str.strip value) "UNKNOWN" = false) values
  end.

(** [_format_req] *)
Definition _format_req (req : Dependency.t) : string :=
  let line := Dependency.name req in
  let line :=
    match Dependency.extras req with
    | [] => line
    | extras => line +:+ "[" +:+ Str.join "," extras +:+ "]"
    end in
  let line :=
    if Str.nonempty (Dependency.version req)
    then line +:+ Dependency.version req else line in
  let line :=
    if Str.nonempty (Dependency.markers req)
    then line +:+ "; " +:+ Dependency.markers req else line in
  line.

(** The field table shared by [dumps] and [_parse_info]. *)
Definition fields : list (string * string) :=
  [("home", "Home-Page"); ("download", "Download-URL");
   ("project", "Project-URL")].

(** [': '.join(pair)] *)
Definition field_line (kv : string * string) : string :=
  kv.1 +:+ ": " +:+ kv.2.

(** [dumps]; the [content] argument is rebound to a fresh list by the
    first statement. *)
Definition dumps (reqs : list Dependency.t) (project : RootDependency)
    (content : option string) : string :=
  let content : list (string * string) := [] in
  let content := content ++ [("Metadata-Version", "2.1")] in
  let content := content ++ [("Name", raw_name project)] in
  let content := content ++ [("Version", version project)] in
  let content :=
    if Str.nonempty (description project)
    then content ++ [("Summary", description project)] else content in
  let content :=
    foldl (λ content '(key, name),
             match links project !! key with
             | Some url => content ++ [(name, url)]
             | None => content
             end) content fields in
  let content :=
    match authors project with
    | author :: _ =>
        let content := content ++ [("Author", Author.name author)] in
        if Str.nonempty (Author.mail author)
        then content ++ [("Author-email", Author.mail author)] else content
    | [] => content
    end in
  let content :=
    match authors project with
    | _ :: author :: _ =>
        let content := content ++ [("Maintainer", Author.name author)] in
        if Str.nonempty (Author.mail author)
        then content ++ [("Maintainer-email", Author.mail author)]
        else content
    | _ => content
    end in
  let content :=
    if Str.nonempty (license project)
    then content ++ [("License", license project)] else content in
  let content :=
    match keywords project with
    | [] => content
    | kws => content ++ [("Keywords", Str.join "," kws)]
    end in
  let content := content ++ ((λ c, ("Classifier", c)) <$> classifiers project) in
  let content := content ++ ((λ p, ("Platform", p)) <$> platforms project) in
  let content := content ++ ((λ req, ("Requires", _format_req req)) <$> reqs) in
  let content := Str.join Str.nl (field_line <$> content) in
  match readme project with
  | Some r => content +:+ Str.nl +:+ Str.nl +:+ Readme.as_rst r
  | None => content
  end.

(** The loop [for req in reqs: req = PackagingRequirement(req);
    deps.extend(DependencyMaker.from_requirement(source=root, req=req))],
    which [_parse_info] and [_parse_requires] share; it stops at the
    first string the grammar rejects. *)
Fixpoint collect_deps (root : RootDependency) (deps : list Dependency.t)
    (reqs : list string) : Result (list Dependency.t) :=
  match reqs with
  | [] => Ok deps
  | req :: rest =>
      match PackagingRequirement req with
      | Some req => collect_deps root (deps ++ from_requirement root req) rest
      | None => Raise (InvalidRequirement req)
      end
  end.

(** The project [_parse_info] builds from the scalar and repeated
    fields, before links, authors and dependencies. *)
Definition info_root (info : Email.Message) : RootDependency :=
  {| raw_name := _get info "Name";
     version := Str.or_else (_get info "Version") "0.0.0";
     description := _get info "Summary";
     license := _get info "License";
     keywords := Str.split_on "," (_get info "Keywords");
     classifiers := _get_list info "Classifier";
     platforms := _get_list info "Platform";
     links := ∅; authors := []; dependencies := []; readme := None |}.

(** [for key, name in fields: ...] of [_parse_info] *)
Definition info_links (info : Email.Message) (root : RootDependency) : RootDependency :=
  foldl (λ root '(key, name),
           let link := _get info name in
           if Str.nonempty link
           then set_links root (<[key := link]> (links root)) else root)
        root fields.

(** [for name in ('author', 'maintainer'): ...] of [_parse_info] *)
Definition info_authors (info : Email.Message) (root : RootDependency) : RootDependency :=
  foldl (λ root name,
           let author := _get info name in
           if Str.nonempty author
           then set_authors root
                  (authors root ++
                   [Author.mk author (_get info (name +:+ "_email"))])
           else root)
        root ["author"; "maintainer"].

(** [_parse_info]; its [root] argument is rebound before any use and is
    left out. *)
Definition _parse_info (content : string) : Result RootDependency :=
  let info := Email.parsestr content in
  let root := info_root info in
  let root := info_links info root in
  let root := info_authors info root in
  deps ← collect_deps root []
           (_get_list info "Requires" ++ _get_list info "Requires-Dist");
  mret (attach_dependencies root deps).

(** [_parse_requires] *)
Definition _parse_requires (content : string) (root : option RootDependency)
    : Result RootDependency :=
  let root :=
    match root with
    | None => new_root (_get_name content)
    | Some root => root
    end in
  deps ← collect_deps root [] (Str.split content);
  mret (attach_dependencies root deps).

(** [loads] *)
Definition loads (content : string) : Result RootDependency :=
  if Str.contains "Name: " content then _parse_info content
  else _parse_requires content None.

(** [_load_dir], its variadic [paths] as a list, over the files of [fs]. *)
Definition _load_dir (fs : FileSystem) (paths : list string)
    : Result RootDependency :=
  match paths with
  | [] => Raise (FileNotFoundError "cannot find egg-info")
  | _ :: _ :: _ => Raise (FileExistsError "too many egg-info")
  | [path] =>
      content ← read_text fs (joinpath path "PKG-INFO");
      root ← _parse_info content;
      let path := joinpath path "requires.txt" in
      match dependencies root with
      | [] =>
          content ← read_text fs path;
          _parse_requires content (Some root)
      | _ => mret root
      end
  end.

End EggInfoConverter.

(** A small requirement grammar to run the converter on examples: a name
    of letters, digits, [.], [_] and [-], then an optional version
    specifier up to an optional [;] and marker. *)
Module Sample.

Definition name_char (c : ascii) : bool :=
  let n := nat_of_ascii c in
  ((48 <=? n) && (n <=? 57)) || ((65 <=? n) && (n <=? 90))
  || ((97 <=? n) && (n <=? 122)) || (n =? 45) || (n =? 46) || (n =? 95).

Definition spec_char (c : ascii) : bool :=
  name_char c || Ascii.eqb c "<" || Ascii.eqb c ">" || Ascii.eqb c "="
  || Ascii.eqb c "!" || Ascii.eqb c "~" || Ascii.eqb c "," || Ascii.eqb c "*".

Fixpoint span (p : ascii → bool) (s : string) : string * string :=
  match s with
  | String c s' =>
      if p c then let '(a, b) := span p s' in (String c a, b)
      else (EmptyString, s)
  | EmptyString => (EmptyString, EmptyString)
  end.

Definition requirement (s : string) : option Requirement.t :=
  let '(name, rest) := span name_char s in
  let '(spec, rest) := span spec_char rest in
  if Str.nonempty name then
    match rest with
    | EmptyString => Some (Requirement.mk name [] spec "")
    | String c marker =>
        if Ascii.eqb c ";"
        then Some (Requirement.mk name [] spec (Str.strip marker))
        else None
    end
  else None.

Definition env : Environment :=
  {| _get_name := λ _, "root"; PackagingRequirement := requirement |}.

End Sample.

(** ** Notions the properties are stated with *)

(** The value a blank or missing field is told apart from. *)
Definition UNKNOWN : string := "UNKNOWN".

(** The field is missing from the message, or blank once trimmed. *)
Definition absent_or_blank (info : Email.Message) (name : string) : Prop :=
  Email.get info name = None
  ∨ ∃ value, Email.get info name = Some value ∧ Str.strip value = "".

(** The field is present and, once trimmed, is the sentinel. *)
Definition is_sentinel (info : Email.Message) (name : string) : Prop :=
  ∃ value, Email.get info name = Some value ∧ Str.strip value = UNKNOWN.

Section Validity.
Context {env : Environment}.

(** The requirement strings a header-form text declares, in the order
    [_parse_info] reads them. *)
Definition declared_requirements (content : string) : list string :=
  let info := Email.parsestr content in
  _get_list info "Requires" ++ _get_list info "Requires-Dist".

(** A header-form text is valid when the requirement grammar accepts
    every requirement it declares; nothing else makes [_parse_info]
    raise. *)
Definition valid_header_form (content : string) : Prop :=
  Forall (λ req, is_Some (PackagingRequirement req))
         (declared_requirements content).

(** A requirement list is valid when the grammar accepts every token. *)
Definition valid_requirement_list (content : string) : Prop :=
  Forall (λ req, is_Some (PackagingRequirement req)) (Str.split content).
End Validity.

(** The project [_parse_info] returns once the requirement loop has
    produced [deps]. *)
Definition parsed (info : Email.Message) (deps : list Dependency.t) : RootDependency :=
  attach_dependencies (info_authors info (info_links info (info_root info))) deps.

(** The record the factory makes of a requirement without extras. *)
Definition plain_record (root : RootDependency) (req : Requirement.t) : Dependency.t :=
  Dependency.mk (Requirement.name req) [] (Requirement.specifier req)
    (Requirement.marker req) (raw_name root).

(** Two records that differ at most in their back-reference. *)
Definition same_record (d d' : Dependency.t) : Prop :=
  Dependency.unsourced d = Dependency.unsourced d'.

(** The lines of a text, cut at LF. *)
Definition lines (text : string) : list string := Str.split_on Str.LF text.

(** *** Header-form documents

    A header-form text written field by field: one line [name: value] per
    field, LF between the lines (the layout [dumps] produces), then
    nothing, a final LF, or a blank line and a body. *)

Fixpoint all_chars (p : ascii → bool) (s : string) : bool :=
  match s with
  | EmptyString => true
  | String c s' => p c && all_chars p s'
  end.

(** A field name the parser takes as such: non-empty, printable ASCII, no
    space and no colon. *)
Definition is_field_name (name : string) : bool :=
  Str.nonempty name && all_chars Email.header_char name.

(** A value written on one line. *)
Definition single_line (value : string) : bool :=
  all_chars (λ c, negb (Email.is_eol c)) value.

Definition well_formed_field (kv : string * string) : Prop :=
  is_field_name kv.1 = true ∧ single_line kv.2 = true.

Definition document (hs : list (string * string)) (rest : string) : string :=
  Str.join Str.nl (field_line <$> hs) +:+ rest.

Definition is_tail (rest : string) : Prop :=
  rest = "" ∨ rest = Str.nl ∨ ∃ body, rest = Str.nl +:+ Str.nl +:+ body.

(** How many fields of [hs] carry [name], case ignored. *)
Definition occurrences (name : string) (hs : list (string * string)) : nat :=
  length (filter (λ kv, Str.lower kv.1 = Str.lower name) hs).

(** A field as the parser stores it: blanks after the colon dropped. *)
Definition unfolded (kv : string * string) : string * string :=
  (kv.1, Str.lstrip_with Email.is_blank kv.2).

(** [line] is the line of field [kv], with or without its line end. *)
Definition is_line_of (line : string) (kv : string * string) : Prop :=
  line = field_line kv ∨ line = field_line kv +:+ Str.nl.

Section Documents.
Context {env : Environment}.

(** A valid header-form document: well-formed fields, Name and Version
    given at most once (they are single-use fields of the core
    metadata), and declared requirements the grammar accepts. *)
Definition valid_document (hs : list (string * string)) (rest : string) : Prop :=
  Forall well_formed_field hs ∧ is_tail rest
  ∧ occurrences "Name" hs ≤ 1 ∧ occurrences "Version" hs ≤ 1
  ∧ valid_header_form (document hs rest).
End Documents.

(** *** Inputs of the scenarios *)

(** The project and the dependency of the round-trip scenario. *)
Definition demo : RootDependency :=
  {| raw_name := "demo"; version := "1.2.3"; description := ""; license := "";
     keywords := []; classifiers := []; platforms := []; links := ∅;
     authors := []; dependencies := []; readme := None |}.

Definition six : Dependency.t :=
  Dependency.mk "six" [] ">=1.10" "" "demo".

(** Header-form fields and texts. *)
Definition demo_fields : list (string * string) :=
  [("Metadata-Version", "2.1"); ("Name", "demo"); ("Version", "1.0")].

(** The same fields with CRLF line ends, a folded Summary and a body. *)
Definition folded_text : string :=
  let crlf := String Str.CR Str.nl in
  "Metadata-Version: 2.1" +:+ crlf +:+ "Name: demo" +:+ crlf
  +:+ "Summary: a demo" +:+ crlf +:+ "  of folding" +:+ crlf
  +:+ "Version:  1.0 " +:+ crlf +:+ crlf +:+ "Name: in the body".

Definition unknown_name_fields : list (string * string) :=
  [("Name", "UNKNOWN"); ("Version", "1.0")].

Definition name_only_text : string := "Name: demo" +:+ Str.nl.

Definition maintainer_only_text : string :=
  "Name: demo" +:+ Str.nl +:+ "Maintainer: Jane" +:+ Str.nl.


Definition unknown_keywords_text : string :=
  "Name: demo" +:+ Str.nl +:+ "Keywords: UNKNOWN" +:+ Str.nl.

(** A requirement list and a metadata directory. *)
Definition two_requirements : string :=
  "six>=1.10" +:+ Str.nl +:+ "requests" +:+ Str.nl.

Definition demo_egg_info : FileSystem :=
  <[joinpath "demo.egg-info" "PKG-INFO" := "Name: demo" +:+ Str.nl +:+ "Version: 1.0" +:+ Str.nl]>
    (<[joinpath "demo.egg-info" "requires.txt" := two_requirements]> ∅).

(** ** What [dumps] writes and what is read back *)

(** The fields [dumps] writes, in order, before they are joined. *)
Definition dumps_content (reqs : list Dependency.t) (project : RootDependency)
    : list (string * string) :=
  [("Metadata-Version", "2.1"); ("Name", raw_name project);
   ("Version", version project)]
  ++ (if Str.nonempty (description project)
      then [("Summary", description project)] else [])
  ++ (fields ≫= λ '(key, name),
        match links project !! key with
        | Some url => [(name, url)]
        | None => []
        end)
  ++ match authors project with
     | author :: _ =>
         ("Author", Author.name author)
         :: (if Str.nonempty (Author.mail author)
             then [("Author-email", Author.mail author)] else [])
     | [] => []
     end
  ++ match authors project with
     | _ :: author :: _ =>
         ("Maintainer", Author.name author)
         :: (if Str.nonempty (Author.mail author)
             then [("Maintainer-email", Author.mail author)] else [])
     | _ => []
     end
  ++ (if Str.nonempty (license project)
      then [("License", license project)] else [])
  ++ match keywords project with
     | [] => []
     | kws => [("Keywords", Str.join "," kws)]
     end
  ++ ((λ c, ("Classifier", c)) <$> classifiers project)
  ++ ((λ p, ("Platform", p)) <$> platforms project)
  ++ ((λ req, ("Requires", _format_req req)) <$> reqs).

(** What [dumps] puts after the fields: the rendered readme behind a
    blank line, if there is a readme. *)
Definition readme_tail (project : RootDependency) : string :=
  match readme project with
  | Some r => Str.nl +:+ Str.nl +:+ Readme.as_rst r
  | None => ""
  end.

(** Every value [dumps] writes is on one line. *)
Definition one_line (reqs : list Dependency.t) (project : RootDependency) : Prop :=
  Forall (λ kv : string * string, single_line kv.2 = true)
         (dumps_content reqs project).

(** What [_get] makes of a value that is present: trimmed, and empty if
    that is the sentinel. *)
Definition normalize (value : string) : string :=
  if String.eqb (Str.strip value) UNKNOWN then "" else Str.strip value.

(** What [_get_list] makes of the values of a repeated field. *)
Definition kept (values : list string) : list string :=
  Str.strip <$> filter (λ value, String.eqb (Str.strip value) UNKNOWN = false) values.

(** The authors [_parse_info] reads back from what [dumps] wrote for the
    author in position [i]: one without mail if the name survives
    [normalize], none otherwise. *)
Definition author_read_back (authors : list Author.t) (i : nat) : list Author.t :=
  match authors !! i with
  | Some author =>
      if Str.nonempty (normalize (Author.name author))
      then [Author.mk (normalize (Author.name author)) ""] else []
  | None => []
  end.

(** The message the parser reads from what [dumps] wrote. *)
Definition written (reqs : list Dependency.t) (project : RootDependency)
    : Email.Message :=
  unfolded <$> dumps_content reqs project.

(** ** Paths and the places [load] looks at *)

(** The two [pathlib] properties [load] reads, on a path written as a
    POSIX string. *)
Module Path.

(** [s.endswith(suffix)] *)
Fixpoint endswith (s suffix : string) : bool :=
  if String.eqb s suffix then true
  else
    match s with
    | String _ s' => endswith s' suffix
    | EmptyString => false
    end.

(** The components of a path: what lies between the slashes, without the
    empty and the [.] components that [Path(...)] drops. *)
Definition parts (path : string) : list string :=
  filter (λ part, part ≠ "" ∧ part ≠ ".") (Str.split_on "/" path).

(** [path.name]: the last component, [''] if there is none. *)
Definition name (path : string) : string := List.last (parts path) "".

(** How many slashes the path starts with. *)
Fixpoint leading_slashes (path : string) : nat :=
  match path with
  | String c rest => if Ascii.eqb c "/" then S (leading_slashes rest) else 0
  | EmptyString => 0
  end.

(** The root [PurePosixPath] splits off: [//] for exactly two leading
    slashes, [/] for one or for three and more, none otherwise. *)
Definition root (path : string) : string :=
  match leading_slashes path with
  | 0 => ""
  | 2 => "//"
  | _ => "/"
  end.

(** [str(Path(path))]: the root, then the components joined by slashes;
    [.] when there is neither. *)
Definition normal (path : string) : string :=
  match root path +:+ Str.join "/" (parts path) with
  | EmptyString => "."
  | spelled => spelled
  end.

(** [name[name.rfind('.'):]], [None] when [name] has no dot. *)
Fixpoint from_last_dot (name : string) : option string :=
  match name with
  | EmptyString => None
  | String c rest =>
      match from_last_dot rest with
      | Some ext => Some ext
      | None => if Ascii.eqb c "." then Some name else None
      end
  end.

(** [path.suffix]: with [i = name.rfind('.')], [name[i:]] if
    [0 < i < len(name) - 1], else ['']. *)
Definition suffix (path : string) : string :=
  let name := name path in
  match from_last_dot name with
  | Some ext =>
      let i := String.length name - String.length ext in
      if (0 <? i) && (i <? String.length name - 1) then ext else ""
  | None => ""
  end.

End Path.

(** What [load] finds outside the converter: the text files, which paths
    are directories, the result of [path.glob('**/*.egg-info')], and for
    an archive the files [ArchivePath] exposes, the result of its glob and
    the readme [Readme.discover] finds in it ([ArchivePath] and
    [Readme.discover] are not among the sources). *)
Record Storage : Type := {
  files : FileSystem;
  is_dir : string → bool;
  glob_egg_info : string → list string;
  archive_files : string → FileSystem;
  archive_glob_egg_info : string → list string;
  discover : string → option Readme.t
}.

Definition set_readme (root : RootDependency) (r : option Readme.t) : RootDependency :=
  {| raw_name := raw_name root; version := version root;
     description := description root; license := license root;
     keywords := keywords root; classifiers := classifiers root;
     platforms := platforms root; links := links root; authors := authors root;
     dependencies := dependencies root; readme := r |}.

Section Load.
Context {env : Environment}.

(** [load]; every later use of [path] is of [Path(str(path))]. *)
Definition load (st : Storage) (path : string) : Result RootDependency :=
  let path := Path.normal path in
  if is_dir st path then
    if Path.endswith (Path.name path) ".egg-info"
    then _load_dir (files st) [path]
    else _load_dir (files st) (glob_egg_info st path)
  else if bool_decide (Path.suffix path ∈ [".zip"; ".gz"; ".tar"]) then
    root ← _load_dir (archive_files st path) (archive_glob_egg_info st path);
    mret (set_readme root (discover st path))
  else
    content ← read_text (files st) path;
    loads content.

End Load.

(** A name made of a non-empty stem and one of the three archive
    extensions. *)
Definition archive_name (name : string) : Prop :=
  ∃ stem ext, stem ≠ "" ∧ ext ∈ ["zip"; "gz"; "tar"] ∧ name = stem +:+ "." +:+ ext.

(** Free of surrounding whitespace. *)
Definition trimmed (s : string) : Prop := Str.strip s = s.

(** The requirement a dependency without extras stands for. *)
Definition as_requirement (d : Dependency.t) : Requirement.t :=
  Requirement.mk (Dependency.name d) [] (Dependency.version d) (Dependency.markers d).

Section ReadBack.
Context {env : Environment}.

(** The grammar reads a formatted dependency back as written. *)
Definition read_back (d : Dependency.t) : Prop :=
  Dependency.extras d = []
  ∧ Str.strip (_format_req d) ≠ UNKNOWN
  ∧ PackagingRequirement (Str.strip (_format_req d)) = Some (as_requirement d).

End ReadBack.

(** *** More inputs *)

(** A project with every kind of metadata set. *)
Definition sample_project : RootDependency :=
  {| raw_name := "demo"; version := "1.2.3"; description := "A demo";
     license := "MIT"; keywords := ["a"; "b"];
     classifiers := ["Topic :: Demo"]; platforms := ["any"];
     links := <["home" := "https://example.org"]> ∅;
     authors := [Author.mk "Jane" "jane@example.org"; Author.mk "Joe" ""];
     dependencies := []; readme := Some (Readme.mk "Read me") |}.

(** A header-form text with blanks around its values. *)
Definition spaced_text : string :=
  "Name:   demo  " +:+ Str.nl +:+ "Keywords:  a, b " +:+ Str.nl
  +:+ "Author:  Jane " +:+ Str.nl +:+ "Classifier:  X  " +:+ Str.nl.

(** A project whose only keyword is the sentinel, and a dependency whose
    requirement line is the sentinel. *)
Definition sentinel_keyword_project : RootDependency :=
  {| raw_name := "demo"; version := "1.2.3"; description := ""; license := "";
     keywords := [UNKNOWN]; classifiers := []; platforms := []; links := ∅;
     authors := []; dependencies := []; readme := None |}.

Definition sentinel_dependency : Dependency.t :=
  Dependency.mk "UNKNOWN" [] "" "" "demo".

(** A requirement list with a token no grammar of names accepts, and a
    header-form text with such a Requires-Dist value. *)
Definition rejected_list : string :=
  "six" +:+ Str.nl +:+ "[bad]" +:+ Str.nl +:+ "requests" +:+ Str.nl.

Definition rejected_text : string :=
  "Name: demo" +:+ Str.nl +:+ "Requires: six" +:+ Str.nl
  +:+ "Requires-Dist: [bad]" +:+ Str.nl +:+ "Requires: requests" +:+ Str.nl.

(** Metadata directories without requires.txt. *)
Definition bare_egg_info : FileSystem :=
  <[joinpath "demo.egg-info" "PKG-INFO" := name_only_text]> ∅.

Definition requiring_egg_info : FileSystem :=
  <[joinpath "demo.egg-info" "PKG-INFO" :=
      "Name: demo" +:+ Str.nl +:+ "Requires: six" +:+ Str.nl]> ∅.

(** A place with one metadata directory, one directory without any, one
    archive and one requirement file. *)
Definition sample_storage : Storage :=
  {| files := <["notes/requires.txt" := two_requirements]> demo_egg_info;
     is_dir := λ path, bool_decide (path ∈ ["demo.egg-info"; "empty"]);
     glob_egg_info := λ _, [];
     archive_files := λ _, demo_egg_info;
     archive_glob_egg_info := λ _, ["demo.egg-info"];
     discover := λ _, Some (Readme.mk "Read me") |}.

(** ** The model at work *)

Example split_tokens :
  Str.split two_requirements = ["six>=1.10"; "requests"].
Proof. reflexivity. Qed.

Example split_on_comma : Str.split_on "," "a,,b," = ["a"; ""; "b"; ""].
Proof. reflexivity. Qed.

Example strip_both_ends : Str.strip ("  a b " +:+ Str.nl) = "a b".
Proof. reflexivity. Qed.

Example parsestr_folds_continuations :
  Email.parsestr ("Name: demo" +:+ Str.nl +:+ "Summary: a" +:+ Str.nl
                  +:+ "  b" +:+ Str.nl +:+ "Version:1.0" +:+ Str.nl
                  +:+ Str.nl +:+ "Body: x")
  = [("Name", "demo"); ("Summary", "a" +:+ Str.nl +:+ "  b"); ("Version", "1.0")].
Proof. reflexivity. Qed.

Example get_ignores_case :
  Email.get [("name", "a"); ("Name", "b")] "Name" = Some "a".
Proof. reflexivity. Qed.

Example format_detection :
  Str.contains "Name: " ("Name: demo" +:+ Str.nl +:+ "Version: 1.0" +:+ Str.nl) = true
  ∧ Str.contains "Name: " two_requirements = false.
Proof. split; reflexivity. Qed.

Example dumps_demo :
  dumps [six] demo None
  = "Metadata-Version: 2.1" +:+ Str.nl +:+ "Name: demo" +:+ Str.nl
    +:+ "Version: 1.2.3" +:+ Str.nl +:+ "Requires: six>=1.10".
Proof. reflexivity. Qed.

(** ** Strings and lines *)


Lemma app_cons c s t : String c s +:+ t = String c (s +:+ t).
Proof. reflexivity. Qed.
Lemma app_empty_l s : "" +:+ s = s.
Proof. reflexivity. Qed.
Lemma app_empty_r s : s +:+ "" = s.
Proof. induction s as [|c s IH]; [done|]. by rewrite app_cons, IH. Qed.
Lemma app_assoc' s t u : (s +:+ t) +:+ u = s +:+ t +:+ u.
Proof. induction s as [|c s IH]; [done|]. by rewrite !app_cons, IH. Qed.

Lemma readlines_LF s : Email.readlines (String Str.LF s) = Str.nl :: Email.readlines s.
Proof. reflexivity. Qed.

Lemma not_eol c : negb (Email.is_eol c) = true →
  Ascii.eqb c Str.LF = false ∧ Ascii.eqb c Str.CR = false.
Proof.
  unfold Email.is_eol. intros Hc%negb_true_iff%orb_false_iff. tauto.
Qed.

Lemma readlines_line l s :
  single_line l = true →
  Email.readlines (l +:+ Str.nl +:+ s) = (l +:+ Str.nl) :: Email.readlines s.
Proof.
  induction l as [|c l IH]; intros Hl; [done|].
  apply andb_true_iff in Hl as [[Hlf Hcr]%not_eol Hl].
  rewrite !app_cons. cbn [Email.readlines]. rewrite Hlf, Hcr, (IH Hl). done.
Qed.

Lemma readlines_last l :
  single_line l = true →
  Email.readlines l = if Str.nonempty l then [l] else [].
Proof.
  induction l as [|c l IH]; intros Hl; [done|].
  apply andb_true_iff in Hl as [[Hlf Hcr]%not_eol Hl].
  cbn [Email.readlines]. rewrite Hlf, Hcr, (IH Hl). by destruct l.
Qed.

Lemma header_char_not_colon c : Email.header_char c = true → Ascii.eqb c ":" = false.
Proof.
  unfold Email.header_char. intros [_ Hc%negb_true_iff]%andb_true_iff.
  apply Ascii.eqb_neq. intros ->. discriminate Hc.
Qed.

Lemma header_char_not_blank c : Email.header_char c = true → Email.is_blank c = false.
Proof.
  unfold Email.header_char, Email.is_blank.
  intros [[Hlo _]%andb_true_iff _]%andb_true_iff.
  apply orb_false_iff; split; apply Ascii.eqb_neq; intros ->; discriminate Hlo.
Qed.

Lemma name_then_colon_field name rest :
  all_chars Email.header_char name = true →
  Email.name_then_colon (name +:+ String ":" rest) = true.
Proof.
  induction name as [|c name IH]; intros Hn; [done|].
  apply andb_true_iff in Hn as [Hc Hn].
  rewrite app_cons. cbn [Email.name_then_colon].
  by rewrite (header_char_not_colon _ Hc), Hc, IH.
Qed.

Lemma split_colon_field name rest :
  all_chars Email.header_char name = true →
  Email.split_colon (name +:+ String ":" rest) = (name, rest).
Proof.
  induction name as [|c name IH]; intros Hn; [done|].
  apply andb_true_iff in Hn as [Hc Hn].
  rewrite app_cons. cbn [Email.split_colon].
  by rewrite (header_char_not_colon _ Hc), IH.
Qed.

Lemma starts_blank_field name rest :
  is_field_name name = true → Email.starts_blank (name +:+ rest) = false.
Proof.
  destruct name as [|c name]; [done|].
  intros [_ [Hc _]%andb_true_iff]%andb_true_iff.
  by apply header_char_not_blank.
Qed.

Lemma not_unix_from name rest :
  all_chars Email.header_char name = true →
  Str.startswith (name +:+ String ":" rest) "From " = false.
Proof.
  unfold Str.startswith. intros Hn.
  destruct name as [|c1 [|c2 [|c3 [|c4 [|c5 name]]]]];
    rewrite ?app_cons, ?app_empty_l; cbn [String.prefix];
    repeat (match goal with
            | |- context [ascii_dec ?a ?b] =>
                destruct (ascii_dec a b) as [Heq|]; [|done];
                try discriminate Heq; subst
            end).
  discriminate Hn.
Qed.

Lemma field_line_eq name value rest :
  field_line (name, value) +:+ rest = name +:+ String ":" (String " " (value +:+ rest)).
Proof. unfold field_line. cbn [fst snd]. by rewrite !app_assoc'. Qed.

Lemma headerRE_field kv rest :
  well_formed_field kv → Email.headerRE (field_line kv +:+ rest) = true.
Proof.
  destruct kv as [name value].
  intros [[_ Hn]%andb_true_iff _]. unfold Email.headerRE.
  rewrite field_line_eq, (name_then_colon_field _ _ Hn).
  by rewrite orb_true_r.
Qed.

Lemma headerRE_field_line kv :
  well_formed_field kv → Email.headerRE (field_line kv) = true.
Proof.
  intros Hkv. pose proof (headerRE_field kv "" Hkv) as Hre.
  by rewrite app_empty_r in Hre.
Qed.

Lemma all_chars_app p s t :
  all_chars p (s +:+ t) = all_chars p s && all_chars p t.
Proof.
  induction s as [|c s IH]; [done|].
  rewrite app_cons. cbn [all_chars]. by rewrite IH, andb_assoc.
Qed.

Lemma all_chars_impl (p q : ascii → bool) s :
  (∀ c, p c = true → q c = true) → all_chars p s = true → all_chars q s = true.
Proof.
  intros Hpq. induction s as [|c s IH]; [done|].
  cbn [all_chars]. rewrite !andb_true_iff. intros [Hc Hs]. auto.
Qed.

Lemma header_char_not_eol c : Email.header_char c = true → negb (Email.is_eol c) = true.
Proof.
  unfold Email.header_char, Email.is_eol.
  intros [[Hlo _]%andb_true_iff _]%andb_true_iff.
  apply negb_true_iff, orb_false_iff; split; apply Ascii.eqb_neq; intros ->; discriminate Hlo.
Qed.

Lemma single_line_field kv :
  well_formed_field kv → single_line (field_line kv) = true.
Proof.
  destruct kv as [name value]. intros [[_ Hn]%andb_true_iff Hv].
  unfold single_line, field_line in *. cbn [fst snd] in *.
  rewrite !all_chars_app, Hv.
  rewrite (all_chars_impl _ _ _ header_char_not_eol Hn). reflexivity.
Qed.

Lemma field_line_nonempty kv :
  well_formed_field kv → Str.nonempty (field_line kv) = true.
Proof.
  destruct kv as [[|c name] value]; [by intros [? _]|done].
Qed.

Lemma header_lines_document hs rest :
  Forall well_formed_field hs → is_tail rest →
  Forall2 is_line_of (Email.header_lines (Email.readlines (document hs rest))) hs.
Proof.
  intros Hhs Hrest. induction Hhs as [|h hs Hh Hhs IH].
  - unfold document. cbn. rewrite app_empty_l.
    destruct Hrest as [-> | [-> | [body ->]]]; by constructor.
  - destruct hs as [|h' hs].
    + unfold document. cbn [fmap list_fmap Str.join String.concat].
      destruct Hrest as [-> | [-> | [body ->]]].
      * rewrite app_empty_r, (readlines_last _ (single_line_field _ Hh)),
          (field_line_nonempty _ Hh).
        cbn [Email.header_lines].
        rewrite (headerRE_field_line _ Hh).
        repeat constructor.
      * rewrite <- (app_empty_r Str.nl) at 1.
        rewrite (readlines_line _ _ (single_line_field _ Hh)).
        cbn [Email.readlines Email.header_lines].
        rewrite (headerRE_field _ _ Hh). constructor; [by right|constructor].
      * rewrite (readlines_line _ _ (single_line_field _ Hh)).
        unfold Str.nl at 2. rewrite app_cons, app_empty_l, readlines_LF.
        cbn [Email.header_lines]. rewrite (headerRE_field _ _ Hh).
        change (Email.headerRE Str.nl) with false. cbv iota.
        constructor; [by right|constructor].
    + assert (document (h :: h' :: hs) rest
              = field_line h +:+ Str.nl +:+ document (h' :: hs) rest) as ->.
      { unfold document. cbn [fmap list_fmap Str.join String.concat].
        by rewrite !app_assoc'. }
      rewrite (readlines_line _ _ (single_line_field _ Hh)).
      cbn [Email.header_lines]. rewrite (headerRE_field _ _ Hh).
      constructor; [by right|done].
Qed.

Lemma lstrip_app_stop p s c t :
  p c = false →
  Str.lstrip_with p (s +:+ String c t) = Str.lstrip_with p s +:+ String c t.
Proof.
  intros Hc. induction s as [|c' s IH].
  - rewrite app_empty_l. cbn [Str.lstrip_with]. by rewrite Hc.
  - rewrite app_cons. cbn [Str.lstrip_with]. by destruct (p c').
Qed.

Lemma all_chars_lstrip p q s :
  all_chars p s = true → all_chars p (Str.lstrip_with q s) = true.
Proof.
  induction s as [|c s IH]; [done|].
  cbn [Str.lstrip_with]. destruct (q c); [|done].
  intros [_ Hs]%andb_true_iff. auto.
Qed.

Lemma rstrip_none p s :
  all_chars (λ c, negb (p c)) s = true → Str.rstrip_with p s = s.
Proof.
  induction s as [|c s IH]; [done|].
  intros [Hc%negb_true_iff Hs]%andb_true_iff.
  cbn [Str.rstrip_with]. rewrite (IH Hs), Hc. by destruct s.
Qed.

Lemma rstrip_app_one p s c :
  p c = true →
  all_chars (λ c, negb (p c)) s = true →
  Str.rstrip_with p (s +:+ String c "") = s.
Proof.
  intros Hc. induction s as [|c' s IH].
  - intros _. rewrite app_empty_l. cbn [Str.rstrip_with]. by rewrite Hc.
  - intros [Hc'%negb_true_iff Hs]%andb_true_iff.
    rewrite app_cons. cbn [Str.rstrip_with]. rewrite (IH Hs), Hc'.
    by destruct s.
Qed.

Lemma header_source_parse_line line kv :
  well_formed_field kv → is_line_of line kv →
  Email.header_source_parse [line] = unfolded kv.
Proof.
  destruct kv as [name value].
  intros [[_ Hn]%andb_true_iff Hv] Hline. cbn [fst snd] in Hn, Hv.
  unfold Email.header_source_parse, unfolded. cbn [fst snd Str.join String.concat].
  destruct Hline as [-> | ->].
  - rewrite <- (app_empty_r (field_line _)), field_line_eq.
    rewrite (split_colon_field _ _ Hn), !app_empty_r.
    cbn [Str.lstrip_with]. change (Email.is_blank " ") with true. cbv iota.
    by rewrite rstrip_none; [|apply all_chars_lstrip].
  - rewrite field_line_eq, (split_colon_field _ _ Hn), app_empty_r.
    cbn [Str.lstrip_with]. change (Email.is_blank " ") with true. cbv iota.
    unfold Str.nl. rewrite lstrip_app_stop by done.
    by rewrite rstrip_app_one; [| |apply all_chars_lstrip].
Qed.

Lemma parse_headers_fields lines hs :
  Forall2 is_line_of lines hs → Forall well_formed_field hs →
  ∀ total lineno lastheader lastvalue headers,
    Email._parse_headers_loop total lineno lastheader lastvalue headers lines
    = Email.flush lastheader lastvalue headers ++ (unfolded <$> hs).
Proof.
  induction 1 as [|line kv lines hs Hline _ IH]; intros Hhs *.
  - cbn. by rewrite app_nil_r.
  - apply Forall_cons in Hhs as [Hkv Hhs].
    pose proof (header_source_parse_line _ _ Hkv Hline) as Hparse.
    destruct kv as [name value].
    assert (∃ rest, line = name +:+ String ":" rest) as [rest ->].
    { destruct Hline as [-> | ->]; [rewrite <- (app_empty_r (field_line _))|];
        rewrite field_line_eq; eauto. }
    destruct Hkv as [Hname _]. cbn [fst] in Hname.
    pose proof Hname as [Hne Hchars]%andb_true_iff.
    cbn [Email._parse_headers_loop].
    rewrite (starts_blank_field _ _ Hname), (not_unix_from _ _ Hchars),
      (split_colon_field _ _ Hchars).
    cbn [fst]. rewrite Hne, (IH Hhs). unfold Email.flush at 1.
    rewrite Hne, Hparse, <- app_assoc. reflexivity.
Qed.

Lemma parsestr_document hs rest :
  Forall well_formed_field hs → is_tail rest →
  Email.parsestr (document hs rest) = unfolded <$> hs.
Proof.
  intros Hhs Hrest. unfold Email.parsestr, Email._parse_headers.
  rewrite (parse_headers_fields _ hs); [done| |done].
  by apply header_lines_document.
Qed.

Lemma get_unfolded hs name :
  Email.get (unfolded <$> hs) name
  = Str.lstrip_with Email.is_blank <$> Email.get hs name.
Proof.
  induction hs as [|[k v] hs IH]; [done|].
  rewrite fmap_cons. cbn [Email.get unfolded fst snd].
  by destruct (String.eqb _ _).
Qed.

Lemma get_single hs name value :
  (name, value) ∈ hs → occurrences name hs ≤ 1 →
  Email.get hs name = Some value.
Proof.
  unfold occurrences. induction hs as [|[k v] hs IH]; intros Hin Hocc.
  - by apply elem_of_nil in Hin.
  - cbn [Email.get]. rewrite filter_cons in Hocc. cbn [fst] in Hocc.
    destruct (String.eqb_spec (Str.lower k) (Str.lower name)) as [Heq|Hne].
    + rewrite decide_True in Hocc by done.
      apply elem_of_cons in Hin as [[= -> ->] | Hin]; [done|].
      assert ((name, value) ∈ filter (λ kv, Str.lower kv.1 = Str.lower name) hs)
        as Hf by (by apply list_elem_of_filter).
      destruct (filter _ hs); [by apply elem_of_nil in Hf|].
      cbn [length] in Hocc. lia.
    + rewrite decide_False in Hocc by done.
      apply elem_of_cons in Hin as [[= -> ->] | Hin]; [done|]. auto.
Qed.

Lemma lstrip_blank_space s :
  Str.lstrip_with Str.isspace (Str.lstrip_with Email.is_blank s)
  = Str.lstrip_with Str.isspace s.
Proof.
  induction s as [|c s IH]; [done|].
  cbn [Str.lstrip_with]. destruct (Email.is_blank c) eqn:Hc; [|done].
  rewrite IH.
  assert (Str.isspace c = true) as ->; [|done].
  unfold Email.is_blank in Hc.
  apply orb_true_iff in Hc as [->%Ascii.eqb_eq | ->%Ascii.eqb_eq]; done.
Qed.

Lemma strip_unfolded s :
  Str.strip (Str.lstrip_with Email.is_blank s) = Str.strip s.
Proof. unfold Str.strip. by rewrite lstrip_blank_space. Qed.

Lemma prefix_app n s : String.prefix n (n +:+ s) = true.
Proof.
  induction n as [|c n IH]; [by destruct s|].
  rewrite app_cons. cbn [String.prefix]. by destruct (ascii_dec c c).
Qed.

Lemma contains_app n a b : Str.contains n (a +:+ n +:+ b) = true.
Proof.
  induction a as [|c a IH].
  - rewrite app_empty_l. destruct (n +:+ b) eqn:Hs; cbn [Str.contains];
      by rewrite <- Hs, prefix_app.
  - rewrite app_cons. cbn [Str.contains]. rewrite IH. by destruct (String.prefix _ _).
Qed.

Lemma join_cons sep x y l :
  Str.join sep (x :: y :: l) = x +:+ sep +:+ Str.join sep (y :: l).
Proof. reflexivity. Qed.

Lemma join_field hs kv :
  kv ∈ hs →
  ∃ before after,
    Str.join Str.nl (field_line <$> hs) = before +:+ field_line kv +:+ after.
Proof.
  induction hs as [|h hs IH]; intros Hin; [by apply elem_of_nil in Hin|].
  apply elem_of_cons in Hin as [-> | Hin].
  - exists "". destruct hs as [|h' hs].
    + exists "". cbn. by rewrite app_empty_r.
    + eexists. rewrite !fmap_cons, join_cons. by rewrite app_empty_l.
  - destruct (IH Hin) as (before & after & Heq).
    destruct hs as [|h' hs]; [by apply elem_of_nil in Hin|].
    exists (field_line h +:+ Str.nl +:+ before), after.
    rewrite fmap_cons in Heq. rewrite !fmap_cons, join_cons, Heq.
    by rewrite !app_assoc'.
Qed.

Lemma contains_field name value hs rest :
  (name, value) ∈ hs →
  Str.contains (name +:+ ": ") (document hs rest) = true.
Proof.
  intros (before & after & Heq)%join_field. unfold document.
  rewrite Heq. unfold field_line. cbn [fst snd].
  rewrite !app_assoc'. rewrite <- (app_assoc' name ": ").
  apply contains_app.
Qed.


(** ** Basic facts *)

Section Facts.
Context {env : Environment}.

Lemma get_name_case (msg : Email.Message) (a b : string) :
  Str.lower a = Str.lower b → Email.get msg a = Email.get msg b.
Proof.
  intros Hab. induction msg as [|[k v] msg IH]; simpl; [done|].
  rewrite Hab, IH. reflexivity.
Qed.

Lemma _get_absent (info : Email.Message) (name : string) :
  absent_or_blank info name → _get info name = "".
Proof.
  unfold _get. intros [-> | (value & -> & Hv)]; [done|].
  destruct (Str.nonempty value); [|done].
  rewrite Hv. reflexivity.
Qed.

Lemma _get_sentinel (info : Email.Message) (name : string) :
  is_sentinel info name → _get info name = "".
Proof.
  unfold _get. intros (value & -> & Hv).
  destruct (Str.nonempty value); [|done].
  rewrite Hv. reflexivity.
Qed.

Lemma _get_value (info : Email.Message) (name value : string) :
  Email.get info name = Some value →
  Str.strip value ≠ UNKNOWN →
  _get info name = Str.strip value.
Proof.
  unfold _get. intros -> Hv.
  destruct value as [|c value]; [done|]. simpl Str.nonempty. cbv iota.
  destruct (String.eqb_spec (Str.strip (String c value)) "UNKNOWN"); done.
Qed.



Lemma collect_deps_app root acc reqs parsed :
  mapM PackagingRequirement reqs = Some parsed →
  collect_deps root acc reqs
  = Ok (acc ++ concat (from_requirement root <$> parsed)).
Proof.
  revert acc parsed. induction reqs as [|req reqs IH]; intros acc parsed.
  - intros [= <-]. simpl. by rewrite app_nil_r.
  - rewrite mapM_Some. intros Hall. apply Forall2_cons_inv_l in Hall
      as (r & parsed' & Hr & Hall & ->).
    simpl. rewrite Hr. rewrite (IH _ parsed'); [|by apply mapM_Some].
    by rewrite <- app_assoc.
Qed.

Lemma mapM_is_Some (reqs : list string) :
  Forall (λ req, is_Some (PackagingRequirement req)) reqs →
  ∃ parsed, mapM PackagingRequirement reqs = Some parsed.
Proof.
  induction 1 as [|req reqs [r Hr] _ (parsed & IH)].
  - by exists [].
  - exists (r :: parsed). apply mapM_Some. constructor; [done|].
    by apply mapM_Some.
Qed.

(** What [_parse_info] returns on a valid text, loop by loop. *)
Lemma _parse_info_valid (content : string) :
  valid_header_form content →
  ∃ deps, _parse_info content = Ok (parsed (Email.parsestr content) deps).
Proof.
  intros (reqs & Hp)%mapM_is_Some. unfold _parse_info.
  eexists. cbv zeta.
  rewrite (collect_deps_app _ _ _ _ Hp). reflexivity.
Qed.

End Facts.

(** ** The fields of a parsed project *)

Section Fields.
Context {env : Environment}.

(** The three loops after the constructor call leave the scalar and
    repeated fields alone. *)
Ltac loops :=
  intros; unfold attach_dependencies, info_authors, info_links, fields;
  cbn [foldl set_dependencies set_authors set_links raw_name version
       description license keywords classifiers platforms links authors
       dependencies fst snd];
  repeat (case_match;
          cbn [set_dependencies set_authors set_links raw_name version
               description license keywords classifiers platforms links
               authors dependencies]);
  try reflexivity.

Lemma parsed_raw_name info deps : raw_name (parsed info deps) = _get info "Name".
Proof. unfold parsed. loops. Qed.

Lemma parsed_version info deps :
  version (parsed info deps) = Str.or_else (_get info "Version") "0.0.0".
Proof. unfold parsed. loops. Qed.

Lemma parsed_description info deps :
  description (parsed info deps) = _get info "Summary".
Proof. unfold parsed. loops. Qed.

Lemma parsed_license info deps : license (parsed info deps) = _get info "License".
Proof. unfold parsed. loops. Qed.

Lemma parsed_keywords info deps :
  keywords (parsed info deps) = Str.split_on "," (_get info "Keywords").
Proof. unfold parsed. loops. Qed.

Lemma parsed_classifiers info deps :
  classifiers (parsed info deps) = _get_list info "Classifier".
Proof. unfold parsed. loops. Qed.

Lemma parsed_platforms info deps :
  platforms (parsed info deps) = _get_list info "Platform".
Proof. unfold parsed. loops. Qed.

Lemma parsed_authors info deps :
  authors (parsed info deps)
  = (if Str.nonempty (_get info "author")
     then [Author.mk (_get info "author") (_get info "author_email")] else [])
    ++ (if Str.nonempty (_get info "maintainer")
        then [Author.mk (_get info "maintainer") (_get info "maintainer_email")]
        else []).
Proof. unfold parsed. loops. Qed.

Lemma parsed_links info deps key name :
  (key, name) ∈ fields →
  links (parsed info deps) !! key
  = if Str.nonempty (_get info name) then Some (_get info name) else None.
Proof.
  intros Hin. unfold fields in Hin.
  repeat (apply elem_of_cons in Hin as [[= -> ->] | Hin]);
    [| | |by apply elem_of_nil in Hin];
    unfold parsed; loops; by simplify_map_eq.
Qed.

Lemma parsed_dependencies info deps :
  dependencies (parsed info deps) = foldl attach_one [] deps.
Proof. unfold parsed. loops. Qed.

End Fields.

(** ** Header-form parsing: defaults and the sentinel *)

(** Cutting at a separator and joining with it again gives the string
    back. *)
Lemma split_on_nonempty sep s : Str.split_on sep s ≠ [].
Proof.
  destruct s as [|c s]; [done|]. cbn [Str.split_on].
  destruct (Ascii.eqb c sep); [done|]. by destruct (Str.split_on sep s).
Qed.

Lemma join_split_on (sep : ascii) s :
  Str.join (String sep "") (Str.split_on sep s) = s.
Proof.
  induction s as [|c s IH]; [done|]. cbn [Str.split_on].
  destruct (Ascii.eqb_spec c sep) as [->|Hne].
  - pose proof (split_on_nonempty sep s) as Hs.
    destruct (Str.split_on sep s) as [|w ws]; [done|].
    unfold Str.join in *. cbn [String.concat]. cbn [String.concat] in IH.
    by rewrite IH.
  - pose proof (split_on_nonempty sep s) as Hs.
    destruct (Str.split_on sep s) as [|w ws]; [done|].
    unfold Str.join in *. destruct ws as [|w' ws]; cbn [String.concat] in *.
    + by rewrite IH.
    + by rewrite <- IH.
Qed.

Lemma split_on_no_sep sep s :
  all_chars (λ c, negb (Ascii.eqb c sep)) s = true → Str.split_on sep s = [s].
Proof.
  induction s as [|c s IH]; [done|].
  intros [Hc%negb_true_iff Hs]%andb_true_iff.
  cbn [Str.split_on]. by rewrite Hc, (IH Hs).
Qed.

Lemma split_on_app sep s t :
  all_chars (λ c, negb (Ascii.eqb c sep)) s = true →
  Str.split_on sep (s +:+ String sep t) = s :: Str.split_on sep t.
Proof.
  induction s as [|c s IH].
  - intros _. change ("" +:+ String sep t) with (String sep t).
    cbn [Str.split_on]. by rewrite Ascii.eqb_refl.
  - intros [Hc%negb_true_iff Hs]%andb_true_iff.
    change (String c s +:+ String sep t) with (String c (s +:+ String sep t)).
    cbn [Str.split_on]. by rewrite Hc, (IH Hs).
Qed.

Section HeaderForm.
Context {env : Environment}.

(** C7. Every valid header-form text that omits the Version field, or
    whose Version value is empty once trimmed, parses to a project whose
    version is "0.0.0". *)
Theorem version_defaults_when_omitted (content : string) :
  valid_header_form content →
  absent_or_blank (Email.parsestr content) "Version" →
  ∃ root, _parse_info content = Ok root ∧ version root = "0.0.0".
Proof.
  intros Hvalid Hversion.
  destruct (_parse_info_valid content Hvalid) as [deps Hroot].
  eexists; split; [exact Hroot|].
  rewrite parsed_version, (_get_absent _ _ Hversion). reflexivity.
Qed.

(** C10. Every valid header-form text whose Keywords field is absent,
    empty once trimmed, or the sentinel "UNKNOWN" parses to a project
    whose keywords are the one-element sequence holding the empty string,
    not the empty sequence. *)
Theorem keywords_default_is_one_empty_string (content : string) :
  valid_header_form content →
  absent_or_blank (Email.parsestr content) "Keywords"
  ∨ is_sentinel (Email.parsestr content) "Keywords" →
  ∃ root, _parse_info content = Ok root
          ∧ keywords root = [""] ∧ keywords root ≠ [].
Proof.
  intros Hvalid Hkeywords.
  destruct (_parse_info_valid content Hvalid) as [deps Hroot].
  eexists; split; [exact Hroot|].
  rewrite parsed_keywords.
  destruct Hkeywords as [Hk | Hk];
    [rewrite (_get_absent _ _ Hk) | rewrite (_get_sentinel _ _ Hk)];
    by split.
Qed.

(** C4, as the code has it. A valid header-form text with no Author
    field and a Maintainer field whose trimmed value is neither empty nor
    the sentinel parses to a project with exactly one author: the
    maintainer, in first position, with the mail read from the field
    named maintainer_email. The maintainer is added whether or not an
    author precedes it. *)
Theorem maintainer_alone_becomes_first_author (content value : string) :
  valid_header_form content →
  Email.get (Email.parsestr content) "Author" = None →
  Email.get (Email.parsestr content) "Maintainer" = Some value →
  Str.strip value ≠ "" →
  Str.strip value ≠ UNKNOWN →
  ∃ root, _parse_info content = Ok root
          ∧ authors root
            = [Author.mk (Str.strip value)
                 (_get (Email.parsestr content) "maintainer_email")].
Proof.
  intros Hvalid Hauthor Hmaint Hne Hns.
  destruct (_parse_info_valid content Hvalid) as [deps Hroot].
  eexists; split; [exact Hroot|].
  rewrite parsed_authors.
  rewrite (_get_absent _ "author"); last first.
  { left. by rewrite (get_name_case _ "author" "Author"). }
  rewrite (_get_value _ "maintainer" value); [| |done]; last first.
  { by rewrite (get_name_case _ "maintainer" "Maintainer"). }
  destruct (Str.strip value); done.
Qed.

(** Nothing [_parse_info] stores in a link is the sentinel, and a link
    is stored under one of the three keys only. *)
Lemma parsed_links_inv info deps key url :
  links (parsed info deps) !! key = Some url →
  ∃ name, (key, name) ∈ fields ∧ url = _get info name.
Proof.
  unfold parsed, attach_dependencies, info_authors, info_links, fields.
  cbn [foldl set_dependencies set_authors set_links links].
  repeat (case_match;
          cbn [set_dependencies set_authors set_links links]);
    intros Hl;
    repeat (apply lookup_insert_Some in Hl as [[<- <-] | [_ Hl]];
            [eexists; split; [|reflexivity]; set_solver|]);
    by rewrite ?lookup_empty in Hl.
Qed.



End HeaderForm.

(** ** Serialization *)

(** C9. The [content] argument of [dumps] has no influence on the
    output: for every dependency list and project, any two values of it
    give the same text; the document is always written from scratch. *)
Theorem dumps_ignores_content (reqs : list Dependency.t) (project : RootDependency)
    (c1 c2 : option string) :
  dumps reqs project c1 = dumps reqs project c2.
Proof. reflexivity. Qed.

(** ** Metadata directories and requirement lists *)

Section Directories.
Context {env : Environment}.

(** C2. [_load_dir] with no candidate directory raises the not-found
    error ([FileNotFoundError] in the code) and with two or more
    candidates the ambiguous-source error ([FileExistsError] in the
    code), whatever the files are; in neither case is a project
    returned. *)
Theorem _load_dir_wants_exactly_one (fs : FileSystem) :
  _load_dir fs [] = Raise (FileNotFoundError "cannot find egg-info")
  ∧ (∀ first second more,
       _load_dir fs (first :: second :: more)
       = Raise (FileExistsError "too many egg-info"))
  ∧ (∀ root, _load_dir fs [] ≠ Ok root)
  ∧ (∀ first second more root,
       _load_dir fs (first :: second :: more) ≠ Ok root).
Proof. split_and!; intros; done. Qed.

(** Attaching records with fresh, pairwise distinct keys appends them. *)
Lemma attach_fresh (deps new : list Dependency.t) :
  NoDup (Dependency.key <$> (deps ++ new)) →
  foldl attach_one deps new = deps ++ new.
Proof.
  revert deps. induction new as [|d new IH]; intros deps Hnodup.
  - by rewrite app_nil_r.
  - simpl. unfold attach_one at 2. rewrite bool_decide_eq_false_2.
    + rewrite IH; rewrite <- app_assoc; done.
    + rewrite fmap_app, fmap_cons in Hnodup.
      apply NoDup_app in Hnodup as (_ & Hfresh & _).
      intros Hin. apply (Hfresh _ Hin). by left.
Qed.

Lemma from_plain_requirements root (reqs : list Requirement.t) :
  Forall (λ req, Requirement.extras req = []) reqs →
  concat (from_requirement root <$> reqs) = plain_record root <$> reqs.
Proof.
  induction 1 as [|req reqs Hreq _ IH]; [done|].
  rewrite !fmap_cons, concat_cons, IH. unfold from_requirement at 1.
  by rewrite Hreq.
Qed.

(** C8. A requirement list whose N whitespace-separated tokens are all
    accepted by the grammar, name pairwise distinct dependencies and
    carry no extras parses to a project with exactly N dependencies, the
    i-th made of the i-th token. *)
Theorem one_dependency_per_token (content : string) (reqs : list Requirement.t) :
  mapM PackagingRequirement (Str.split content) = Some reqs →
  NoDup (Requirement.name <$> reqs) →
  Forall (λ req, Requirement.extras req = []) reqs →
  ∃ root, _parse_requires content None = Ok root
          ∧ length (dependencies root) = length (Str.split content)
          ∧ Forall2 (λ dep req,
                       Dependency.name dep = Requirement.name req
                       ∧ Dependency.extras dep = []
                       ∧ Dependency.version dep = Requirement.specifier req
                       ∧ Dependency.markers dep = Requirement.marker req)
                    (dependencies root) reqs.
Proof.
  intros Hparsed Hnames Hplain. unfold _parse_requires.
  rewrite (collect_deps_app _ _ _ _ Hparsed), app_nil_l.
  rewrite (from_plain_requirements _ _ Hplain).
  eexists; split; [reflexivity|].
  cbn [attach_dependencies set_dependencies dependencies new_root].
  rewrite attach_fresh.
  - rewrite app_nil_l. split.
    + rewrite length_fmap. symmetry. by eapply length_mapM.
    + apply Forall2_fmap_l, Forall_Forall2_diag, Forall_forall. done.
  - rewrite app_nil_l, <- list_fmap_compose.
    change (Dependency.key ∘ plain_record _)
      with ((λ name : string, (name, @nil string)) ∘ Requirement.name).
    rewrite list_fmap_compose. apply NoDup_fmap_2; [|done].
    by intros ?? [= ->].
Qed.

Lemma same_record_key d d' : same_record d d' → Dependency.key d = Dependency.key d'.
Proof. unfold same_record, Dependency.unsourced, Dependency.key. by intros [= -> -> _ _]. Qed.

Lemma attach_one_same deps deps' d d' :
  Forall2 same_record deps deps' → same_record d d' →
  Forall2 same_record (attach_one deps d) (attach_one deps' d').
Proof.
  intros Hdeps Hd. unfold attach_one.
  assert (Dependency.key <$> deps = Dependency.key <$> deps') as <-.
  { induction Hdeps as [|???? Hxy _ IH]; [done|].
    by rewrite !fmap_cons, IH, (same_record_key _ _ Hxy). }
  rewrite <- (same_record_key _ _ Hd).
  case_bool_decide; [done|]. apply Forall2_app; [done|]. by constructor.
Qed.

Lemma attach_same new new' : ∀ deps deps',
  Forall2 same_record new new' → Forall2 same_record deps deps' →
  Forall2 same_record (foldl attach_one deps new) (foldl attach_one deps' new').
Proof.
  intros deps deps' Hnew. revert deps deps'.
  induction Hnew as [|d d' new new' Hd _ IH]; intros deps deps' Hdeps; [done|].
  simpl. apply IH. by apply attach_one_same.
Qed.

Lemma from_requirement_same root root' (reqs : list Requirement.t) :
  Forall2 same_record (concat (from_requirement root <$> reqs))
                      (concat (from_requirement root' <$> reqs)).
Proof.
  induction reqs as [|req reqs IH]; [constructor|].
  rewrite !fmap_cons, !concat_cons. apply Forall2_app; [|done].
  unfold from_requirement. destruct (Requirement.extras req) as [|e es].
  - by repeat constructor.
  - apply Forall2_fmap, Forall_Forall2_diag, Forall_forall. done.
Qed.

Lemma from_requirement_source root (reqs : list Requirement.t) :
  Forall (λ dep, Dependency.source dep = raw_name root)
         (concat (from_requirement root <$> reqs)).
Proof.
  induction reqs as [|req reqs IH]; [constructor|].
  rewrite fmap_cons, concat_cons. apply Forall_app; split; [|done].
  unfold from_requirement. destruct (Requirement.extras req) as [|e es].
  - by repeat constructor.
  - apply Forall_fmap, Forall_forall. done.
Qed.

Lemma attach_keeps (P : Dependency.t → Prop) new : ∀ deps,
  Forall P deps → Forall P new → Forall P (foldl attach_one deps new).
Proof.
  induction new as [|d new IH]; intros deps Hdeps Hnew; [done|].
  apply Forall_cons in Hnew as [Hd Hnew]. simpl. apply IH; [|done].
  unfold attach_one. case_bool_decide; [done|].
  apply Forall_app; split; [done|]. by constructor.
Qed.

(** The keys of the records made of requirements without extras are
    their names. *)
Lemma plain_keys_NoDup root (reqs : list Requirement.t) :
  NoDup (Requirement.name <$> reqs) →
  NoDup (Dependency.key <$> (plain_record root <$> reqs)).
Proof.
  intros Hnames. rewrite <- list_fmap_compose.
  change (Dependency.key ∘ plain_record _)
    with ((λ name : string, (name, @nil string)) ∘ Requirement.name).
  rewrite list_fmap_compose. apply NoDup_fmap_2; [|done].
  by intros ?? [= ->].
Qed.

(** C3. For [_load_dir] on one candidate directory whose PKG-INFO has no
    Requires and no Requires-Dist field and whose requires.txt splits
    into tokens the grammar reads as the requirements [reqs]: PKG-INFO
    parses to a project without dependencies, and the call returns a
    project whose dependencies are exactly those of requires.txt, that
    is, the records the factory makes of [reqs] for the PKG-INFO project,
    attached in order to an empty list; when the requirements carry no
    extras and pairwise distinct names this is one record per token, in
    order, with the token's name, specifier and marker and the PKG-INFO
    project's name as source.  They are the records of the
    requirement-list parse of requires.txt alone, the back-reference
    apart, and each refers to the returned project; raw_name, version,
    description, license, keywords, classifiers, platforms, links and
    authors are the ones parsed from PKG-INFO. *)
Theorem _load_dir_merges_requires_txt (fs : FileSystem)
    (path pkg_info requires : string) (reqs : list Requirement.t) :
  fs !! joinpath path "PKG-INFO" = Some pkg_info →
  fs !! joinpath path "requires.txt" = Some requires →
  Email.get_all (Email.parsestr pkg_info) "Requires" = None →
  Email.get_all (Email.parsestr pkg_info) "Requires-Dist" = None →
  mapM PackagingRequirement (Str.split requires) = Some reqs →
  ∃ from_info from_requires root,
    _parse_info pkg_info = Ok from_info
    ∧ dependencies from_info = []
    ∧ _parse_requires requires None = Ok from_requires
    ∧ _load_dir fs [path] = Ok root
    ∧ dependencies root
      = foldl attach_one [] (concat (from_requirement from_info <$> reqs))
    ∧ (NoDup (Requirement.name <$> reqs) →
       Forall (λ req, Requirement.extras req = []) reqs →
       dependencies root
       = (λ req, Dependency.mk (Requirement.name req) []
                   (Requirement.specifier req) (Requirement.marker req)
                   (raw_name from_info)) <$> reqs)
    ∧ Dependency.unsourced <$> dependencies root
      = Dependency.unsourced <$> dependencies from_requires
    ∧ Forall (λ dep, Dependency.source dep = raw_name root) (dependencies root)
    ∧ raw_name root = raw_name from_info
    ∧ version root = version from_info
    ∧ description root = description from_info
    ∧ license root = license from_info
    ∧ keywords root = keywords from_info
    ∧ classifiers root = classifiers from_info
    ∧ platforms root = platforms from_info
    ∧ links root = links from_info
    ∧ authors root = authors from_info.
Proof.
  intros Hpkg Hreq Hrequires Hdist Hreqs.
  assert (_parse_info pkg_info = Ok (parsed (Email.parsestr pkg_info) []))
    as Hinfo.
  { unfold _parse_info, _get_list. by rewrite Hrequires, Hdist. }
  exists (parsed (Email.parsestr pkg_info) []).
  unfold _load_dir, read_text, _parse_requires.
  rewrite Hpkg. cbn [mbind Result_bind]. rewrite Hinfo.
  cbn [mbind Result_bind]. rewrite parsed_dependencies. cbn [foldl].
  rewrite Hreq. cbn [mbind Result_bind].
  rewrite !(collect_deps_app _ _ _ _ Hreqs), !app_nil_l.
  do 2 eexists. split_and!; try reflexivity.
  - cbn [attach_dependencies set_dependencies dependencies].
    by rewrite parsed_dependencies.
  - intros Hnames Hplain.
    cbn [attach_dependencies set_dependencies dependencies].
    rewrite parsed_dependencies. cbn [foldl].
    rewrite (from_plain_requirements _ _ Hplain).
    rewrite attach_fresh; [done|]. rewrite app_nil_l.
    by apply plain_keys_NoDup.
  - apply list_eq_Forall2, Forall2_fmap.
    cbn [attach_dependencies set_dependencies dependencies].
    rewrite parsed_dependencies. cbn [foldl new_root dependencies].
    apply attach_same; [apply from_requirement_same | constructor].
  - cbn [attach_dependencies set_dependencies dependencies raw_name].
    rewrite parsed_dependencies. cbn [foldl].
    apply attach_keeps; [constructor | apply from_requirement_source].
Qed.

End Directories.

(** ** Format detection and header-form documents *)

Section Loads.
Context {env : Environment}.

(** C1, as the code has it. For every valid header-form text, of any
    layout (LF, CR or CRLF line ends, folded values, a body), that holds
    the marker [Name: ] and whose Name and Version fields read X and Y
    (the first field of that name, case ignored, as the header parser
    unfolds it), where Y trimmed is neither empty nor the sentinel and X
    trimmed is not the sentinel either, [loads] routes the text to
    header-form parsing and returns a project whose raw_name is X trimmed
    and whose version is Y trimmed. *)
Theorem name_and_version_are_loaded (content name_value version_value : string) :
  valid_header_form content →
  Str.contains "Name: " content = true →
  Email.get (Email.parsestr content) "Name" = Some name_value →
  Email.get (Email.parsestr content) "Version" = Some version_value →
  Str.strip name_value ≠ UNKNOWN →
  Str.strip version_value ≠ "" →
  Str.strip version_value ≠ UNKNOWN →
  loads content = _parse_info content
  ∧ ∃ root, loads content = Ok root
            ∧ raw_name root = Str.strip name_value
            ∧ version root = Str.strip version_value.
Proof.
  intros Hvalid Hmarker Hname Hversion Hnsent Hvne Hvsent.
  assert (loads content = _parse_info content) as Hroute.
  { unfold loads. by rewrite Hmarker. }
  split; [done|]. rewrite Hroute.
  destruct (_parse_info_valid _ Hvalid) as [deps Hroot].
  eexists; split; [exact Hroot|].
  rewrite parsed_raw_name, parsed_version.
  rewrite (_get_value _ "Name" name_value Hname Hnsent),
    (_get_value _ "Version" version_value Hversion Hvsent).
  split; [done|]. unfold Str.or_else.
  by destruct (Str.strip version_value).
Qed.

(** The plain layout: a document written one field line [name: value]
    per line meets these conditions for each field line it has, Name and
    Version being given once; the marker is there because the Name line
    is, and the parser reads the values as written. *)
Lemma document_name_and_version (hs : list (string * string))
    (rest name_value version_value : string) :
  valid_document hs rest →
  ("Name", name_value) ∈ hs →
  ("Version", version_value) ∈ hs →
  Str.strip name_value ≠ UNKNOWN →
  Str.strip version_value ≠ "" →
  Str.strip version_value ≠ UNKNOWN →
  loads (document hs rest) = _parse_info (document hs rest)
  ∧ ∃ root, loads (document hs rest) = Ok root
            ∧ raw_name root = Str.strip name_value
            ∧ version root = Str.strip version_value.
Proof.
  intros (Hfields & Hrest & Hname1 & Hversion1 & Hvalid) Hname Hversion
    Hnsent Hvne Hvsent.
  assert (loads (document hs rest) = _parse_info (document hs rest)) as Hroute.
  { unfold loads. by rewrite (contains_field "Name" name_value). }
  split; [done|]. rewrite Hroute.
  destruct (_parse_info_valid _ Hvalid) as [deps Hroot].
  eexists; split; [exact Hroot|].
  rewrite parsed_raw_name, parsed_version.
  rewrite (parsestr_document _ _ Hfields Hrest).
  rewrite (_get_value _ "Name" (Str.lstrip_with Email.is_blank name_value)),
    (_get_value _ "Version" (Str.lstrip_with Email.is_blank version_value)),
    !strip_unfolded.
  - split; [done|]. unfold Str.or_else.
    by destruct (Str.strip version_value).
  - by rewrite get_unfolded, (get_single _ _ _ Hversion Hversion1).
  - by rewrite strip_unfolded.
  - by rewrite get_unfolded, (get_single _ _ _ Hname Hname1).
  - by rewrite strip_unfolded.
Qed.

(** C5. Round trip of the scenario: for the project "demo" 1.2.3 and the
    single dependency six >=1.10 (no extras, no markers), the text
    [dumps] writes has the lines [Name: demo], [Version: 1.2.3] and
    [Requires: six>=1.10], and [loads] of that text returns a project
    with raw_name "demo" and version "1.2.3" (the requirement grammar
    accepting "six>=1.10"). *)
Theorem dumps_then_loads_demo :
  is_Some (PackagingRequirement "six>=1.10") →
  "Name: demo" ∈ lines (dumps [six] demo None)
  ∧ "Version: 1.2.3" ∈ lines (dumps [six] demo None)
  ∧ "Requires: six>=1.10" ∈ lines (dumps [six] demo None)
  ∧ ∃ root, loads (dumps [six] demo None) = Ok root
            ∧ raw_name root = "demo" ∧ version root = "1.2.3".
Proof.
  intros Hsix. split_and!; [compute_done..|].
  assert (valid_header_form (dumps [six] demo None)) as Hvalid.
  { unfold valid_header_form.
    assert (declared_requirements (dumps [six] demo None) = ["six>=1.10"])
      as -> by (vm_compute; reflexivity).
    by apply Forall_singleton. }
  destruct (_parse_info_valid _ Hvalid) as [deps Hroot].
  exists (parsed (Email.parsestr (dumps [six] demo None)) deps).
  split_and!.
  - unfold loads.
    assert (Str.contains "Name: " (dumps [six] demo None) = true)
      as -> by (vm_compute; reflexivity).
    exact Hroot.
  - rewrite parsed_raw_name. vm_compute; reflexivity.
  - rewrite parsed_version. vm_compute; reflexivity.
Qed.

End Loads.

(** ** The scenarios, run

    Closed instances of the statements above, with the sample requirement
    grammar standing for [packaging]. *)

Ltac run := first [compute_done | vm_compute; reflexivity].

Lemma name_and_version_are_loaded_witness :
  valid_header_form (env := Sample.env) folded_text
  ∧ Str.contains "Name: " folded_text = true
  ∧ Email.get (Email.parsestr folded_text) "Name" = Some "demo"
  ∧ Email.get (Email.parsestr folded_text) "Version" = Some "1.0 "
  ∧ Str.strip "demo" ≠ UNKNOWN
  ∧ Str.strip "1.0 " ≠ ""
  ∧ Str.strip "1.0 " ≠ UNKNOWN
  ∧ loads (env := Sample.env) folded_text
    = _parse_info (env := Sample.env) folded_text
  ∧ ∃ root, loads (env := Sample.env) folded_text = Ok root
            ∧ raw_name root = Str.strip "demo"
            ∧ version root = Str.strip "1.0 ".
Proof.
  assert (valid_header_form (env := Sample.env) folded_text)
    as Hvalid by (unfold valid_header_form; run).
  assert (Str.contains "Name: " folded_text = true) as Hmarker by run.
  assert (Email.get (Email.parsestr folded_text) "Name" = Some "demo")
    as Hname by run.
  assert (Email.get (Email.parsestr folded_text) "Version" = Some "1.0 ")
    as Hversion by run.
  assert (Str.strip "demo" ≠ UNKNOWN) as Hx by run.
  assert (Str.strip "1.0 " ≠ "") as Hy by run.
  assert (Str.strip "1.0 " ≠ UNKNOWN) as Hy' by run.
  split_and!; try assumption;
    apply (name_and_version_are_loaded (env := Sample.env)
             folded_text "demo" "1.0 " Hvalid Hmarker Hname Hversion Hx Hy Hy').
Defined.

(** The plain layout of the same fields, through the document lemma. *)
Example demo_document_is_loaded :
  ∃ root, loads (env := Sample.env) (document demo_fields Str.nl) = Ok root
          ∧ raw_name root = "demo" ∧ version root = "1.0".
Proof.
  assert (valid_document (env := Sample.env) demo_fields Str.nl) as Hdoc.
  { split_and!.
    - repeat constructor.
    - right; left; reflexivity.
    - run.
    - run.
    - unfold valid_header_form. run. }
  apply (document_name_and_version (env := Sample.env)
           demo_fields Str.nl "demo" "1.0" Hdoc); run.
Qed.

(** The folded text, parsed. *)
Example folded_text_is_parsed :
  Email.parsestr folded_text
  = [("Metadata-Version", "2.1"); ("Name", "demo");
     ("Summary", "a demo" +:+ String Str.CR Str.nl +:+ "  of folding");
     ("Version", "1.0 ")].
Proof. reflexivity. Qed.

(** C1 as stated fails when the Name value is the sentinel: the document
    is valid and has the field line [Name: UNKNOWN], and the project
    [loads] returns has the empty raw_name. *)
Lemma unknown_name_counterexample :
  valid_document (env := Sample.env) unknown_name_fields Str.nl
  ∧ ("Name", "UNKNOWN") ∈ unknown_name_fields
  ∧ ("Version", "1.0") ∈ unknown_name_fields
  ∧ ∃ root, loads (env := Sample.env) (document unknown_name_fields Str.nl) = Ok root
            ∧ raw_name root = ""
            ∧ raw_name root ≠ "UNKNOWN"
            ∧ version root = "1.0".
Proof.
  split_and!.
  - split_and!.
    + repeat constructor.
    + right; left; reflexivity.
    + run.
    + run.
    + unfold valid_header_form. run.
  - run.
  - run.
  - eexists. split; [vm_compute; reflexivity|]. by split_and!.
Qed.

Lemma _load_dir_merges_requires_txt_witness :
  demo_egg_info !! joinpath "demo.egg-info" "PKG-INFO"
  = Some ("Name: demo" +:+ Str.nl +:+ "Version: 1.0" +:+ Str.nl)
  ∧ demo_egg_info !! joinpath "demo.egg-info" "requires.txt" = Some two_requirements
  ∧ Email.get_all
      (Email.parsestr ("Name: demo" +:+ Str.nl +:+ "Version: 1.0" +:+ Str.nl))
      "Requires" = None
  ∧ Email.get_all
      (Email.parsestr ("Name: demo" +:+ Str.nl +:+ "Version: 1.0" +:+ Str.nl))
      "Requires-Dist" = None
  ∧ mapM (PackagingRequirement (Environment := Sample.env))
      (Str.split two_requirements)
    = Some [Requirement.mk "six" [] ">=1.10" ""; Requirement.mk "requests" [] "" ""]
  ∧ ∃ root,
      _load_dir (env := Sample.env) demo_egg_info ["demo.egg-info"] = Ok root
      ∧ dependencies root
        = [Dependency.mk "six" [] ">=1.10" "" "demo";
           Dependency.mk "requests" [] "" "" "demo"]
      ∧ raw_name root = "demo"
      ∧ version root = "1.0".
Proof.
  assert (demo_egg_info !! joinpath "demo.egg-info" "PKG-INFO"
          = Some ("Name: demo" +:+ Str.nl +:+ "Version: 1.0" +:+ Str.nl))
    as Hpkg by run.
  assert (demo_egg_info !! joinpath "demo.egg-info" "requires.txt"
          = Some two_requirements) as Hreq by run.
  assert (Email.get_all
            (Email.parsestr ("Name: demo" +:+ Str.nl +:+ "Version: 1.0" +:+ Str.nl))
            "Requires" = None) as Hrequires by run.
  assert (Email.get_all
            (Email.parsestr ("Name: demo" +:+ Str.nl +:+ "Version: 1.0" +:+ Str.nl))
            "Requires-Dist" = None) as Hdist by run.
  assert (mapM (PackagingRequirement (Environment := Sample.env))
            (Str.split two_requirements)
          = Some [Requirement.mk "six" [] ">=1.10" "";
                  Requirement.mk "requests" [] "" ""]) as Hreqs by run.
  split_and!; try assumption.
  destruct (_load_dir_merges_requires_txt (env := Sample.env) demo_egg_info
              "demo.egg-info" _ two_requirements _ Hpkg Hreq Hrequires Hdist Hreqs)
    as (from_info & from_requires & root & Hinfo & _ & _ & Hroot & _ & Hplain
        & _ & _ & Hname & Hversion & _).
  assert (from_info
          = parsed (Email.parsestr
                      ("Name: demo" +:+ Str.nl +:+ "Version: 1.0" +:+ Str.nl)) [])
    as Hfrom.
  { assert (_parse_info (env := Sample.env)
              ("Name: demo" +:+ Str.nl +:+ "Version: 1.0" +:+ Str.nl)
            = Ok (parsed (Email.parsestr
                            ("Name: demo" +:+ Str.nl +:+ "Version: 1.0" +:+ Str.nl)) []))
      as Hrun by run.
    congruence. }
  exists root. split; [exact Hroot|].
  rewrite Hplain, Hname, Hversion, Hfrom.
  - split_and!; run.
  - run.
  - repeat constructor.
Defined.

Lemma maintainer_alone_becomes_first_author_witness :
  valid_header_form (env := Sample.env) maintainer_only_text
  ∧ Email.get (Email.parsestr maintainer_only_text) "Author" = None
  ∧ Email.get (Email.parsestr maintainer_only_text) "Maintainer" = Some "Jane"
  ∧ Str.strip "Jane" ≠ ""
  ∧ Str.strip "Jane" ≠ UNKNOWN
  ∧ ∃ root, _parse_info (env := Sample.env) maintainer_only_text = Ok root
            ∧ authors root
              = [Author.mk (Str.strip "Jane")
                   (_get (Email.parsestr maintainer_only_text) "maintainer_email")].
Proof.
  assert (valid_header_form (env := Sample.env) maintainer_only_text)
    as Hvalid by (unfold valid_header_form; run).
  assert (Email.get (Email.parsestr maintainer_only_text) "Author" = None)
    as Hauthor by run.
  assert (Email.get (Email.parsestr maintainer_only_text) "Maintainer" = Some "Jane")
    as Hmaint by run.
  assert (Str.strip "Jane" ≠ "") as Hne by run.
  assert (Str.strip "Jane" ≠ UNKNOWN) as Hns by run.
  split_and!; try assumption.
  apply (maintainer_alone_becomes_first_author (env := Sample.env)
           maintainer_only_text "Jane" Hvalid Hauthor Hmaint Hne Hns).
Defined.

(** C4 as stated fails: the text has a Maintainer field holding Jane and
    no Author field, and the parsed project has one author, Jane, not
    none. *)
Lemma maintainer_only_counterexample :
  Email.get (Email.parsestr maintainer_only_text) "Author" = None
  ∧ Email.get (Email.parsestr maintainer_only_text) "Maintainer" = Some "Jane"
  ∧ loads (env := Sample.env) maintainer_only_text
    = _parse_info (env := Sample.env) maintainer_only_text
  ∧ ∃ root, _parse_info (env := Sample.env) maintainer_only_text = Ok root
            ∧ authors root = [Author.mk "Jane" ""]
            ∧ authors root ≠ [].
Proof.
  split_and!; [run..|].
  eexists. split; [vm_compute; reflexivity|]. by split.
Qed.



Lemma version_defaults_when_omitted_witness :
  valid_header_form (env := Sample.env) name_only_text
  ∧ absent_or_blank (Email.parsestr name_only_text) "Version"
  ∧ ∃ root, _parse_info (env := Sample.env) name_only_text = Ok root
            ∧ version root = "0.0.0".
Proof.
  assert (valid_header_form (env := Sample.env) name_only_text)
    as Hvalid by (unfold valid_header_form; run).
  assert (absent_or_blank (Email.parsestr name_only_text) "Version")
    as Hversion by (left; run).
  split_and!; try assumption.
  apply (version_defaults_when_omitted (env := Sample.env)
           name_only_text Hvalid Hversion).
Defined.

Lemma keywords_default_is_one_empty_string_witness :
  valid_header_form (env := Sample.env) unknown_keywords_text
  ∧ is_sentinel (Email.parsestr unknown_keywords_text) "Keywords"
  ∧ ∃ root, _parse_info (env := Sample.env) unknown_keywords_text = Ok root
            ∧ keywords root = [""] ∧ keywords root ≠ [].
Proof.
  assert (valid_header_form (env := Sample.env) unknown_keywords_text)
    as Hvalid by (unfold valid_header_form; run).
  assert (is_sentinel (Email.parsestr unknown_keywords_text) "Keywords")
    as Hkeywords by (exists "UNKNOWN"; split; run).
  split_and!; try assumption.
  apply (keywords_default_is_one_empty_string (env := Sample.env)
           unknown_keywords_text Hvalid (or_intror Hkeywords)).
Defined.

Lemma one_dependency_per_token_witness :
  let reqs := [Requirement.mk "six" [] ">=1.10" "";
               Requirement.mk "requests" [] "" ""] in
  mapM (PackagingRequirement (Environment := Sample.env)) (Str.split two_requirements)
  = Some reqs
  ∧ NoDup (Requirement.name <$> reqs)
  ∧ Forall (λ req, Requirement.extras req = []) reqs
  ∧ ∃ root, _parse_requires (env := Sample.env) two_requirements None = Ok root
            ∧ length (dependencies root) = length (Str.split two_requirements)
            ∧ Forall2 (λ dep req,
                         Dependency.name dep = Requirement.name req
                         ∧ Dependency.extras dep = []
                         ∧ Dependency.version dep = Requirement.specifier req
                         ∧ Dependency.markers dep = Requirement.marker req)
                      (dependencies root) reqs.
Proof.
  intros reqs.
  assert (mapM (PackagingRequirement (Environment := Sample.env))
            (Str.split two_requirements) = Some reqs) as Hparsed by run.
  assert (NoDup (Requirement.name <$> reqs)) as Hnames by run.
  assert (Forall (λ req, Requirement.extras req = []) reqs) as Hplain
    by repeat constructor.
  split_and!; try assumption.
  apply (one_dependency_per_token (env := Sample.env)
           two_requirements reqs Hparsed Hnames Hplain).
Defined.

Lemma dumps_then_loads_demo_witness :
  is_Some (PackagingRequirement (Environment := Sample.env) "six>=1.10")
  ∧ "Name: demo" ∈ lines (dumps [six] demo None)
  ∧ "Version: 1.2.3" ∈ lines (dumps [six] demo None)
  ∧ "Requires: six>=1.10" ∈ lines (dumps [six] demo None)
  ∧ ∃ root, loads (env := Sample.env) (dumps [six] demo None) = Ok root
            ∧ raw_name root = "demo" ∧ version root = "1.2.3".
Proof.
  assert (is_Some (PackagingRequirement (Environment := Sample.env) "six>=1.10"))
    as Hsix by run.
  split; [exact Hsix|].
  apply (dumps_then_loads_demo (env := Sample.env) Hsix).
Defined.

(** ** Writing and reading back *)

Lemma if_snoc {A} (b : bool) (l : list A) x :
  (if b then l ++ [x] else l) = l ++ (if b then [x] else []).
Proof. destruct b; [done|by rewrite app_nil_r]. Qed.

Lemma dumps_links (project : RootDependency) (content : list (string * string)) :
  foldl (λ content '(key, name),
           match links project !! key with
           | Some url => content ++ [(name, url)]
           | None => content
           end) content fields
  = content ++ (fields ≫= λ '(key, name),
                  match links project !! key with
                  | Some url => [(name, url)]
                  | None => []
                  end).
Proof.
  unfold fields. cbn [foldl mbind list_bind].
  destruct (links project !! "home"), (links project !! "download"),
    (links project !! "project"); cbn [app]; by rewrite <- ?app_assoc, ?app_nil_r.
Qed.

Lemma dumps_document reqs project content :
  dumps reqs project content
  = document (dumps_content reqs project) (readme_tail project).
Proof.
  unfold dumps, dumps_content, document, readme_tail.
  cbv zeta. rewrite !dumps_links, !if_snoc.
  destruct (keywords project), (readme project);
    destruct (authors project) as [|a1 [|a2 more]];
    rewrite ?if_snoc;
    rewrite <- ?app_assoc; cbn [app];
    rewrite ?app_empty_r; reflexivity.
Qed.

Lemma get_app (m1 m2 : Email.Message) name :
  Email.get (m1 ++ m2) name
  = match Email.get m1 name with
    | Some v => Some v
    | None => Email.get m2 name
    end.
Proof.
  induction m1 as [|[k v] m1 IH]; [done|].
  cbn [app Email.get]. by destruct (String.eqb _ _).
Qed.

(** Segments of [dumps_content] that hold no field called [name]. *)
Lemma get_skip (seg : list (string * string)) (name : string) :
  Forall (λ kv, String.eqb (Str.lower kv.1) (Str.lower name) = false) seg →
  Email.get (unfolded <$> seg) name = None.
Proof.
  induction 1 as [|[k v] seg Hk _ IH]; [done|].
  rewrite fmap_cons. cbn [Email.get unfolded fst] in *. by rewrite Hk.
Qed.

Lemma matching_skip (seg : list (string * string)) (name : string) :
  Forall (λ kv, String.eqb (Str.lower kv.1) (Str.lower name) = false) seg →
  filter (λ kv, String.eqb (Str.lower kv.1) (Str.lower name) = true)
         (unfolded <$> seg) = [].
Proof.
  induction 1 as [|[k v] seg Hk _ IH]; [done|].
  rewrite fmap_cons, filter_cons. cbn [unfolded fst] in *.
  rewrite decide_False; [done|]. by rewrite Hk.
Qed.

Ltac other_names :=
  repeat case_match;
  repeat first
    [ apply Forall_nil_2
    | apply Forall_cons_2; [reflexivity|]
    | apply Forall_fmap, Forall_true; intros ?; reflexivity ].

Ltac skip_segments :=
  repeat match goal with
         | |- context [Email.get (unfolded <$> ?seg) ?name] =>
             rewrite (get_skip seg name) by other_names
         end.

Ltac read_field :=
  unfold dumps_content, fields; cbn [mbind list_bind];
  rewrite ?fmap_app, ?get_app; skip_segments.

Lemma matching_all (name : string) {A} (g : A → string * string) (l : list A) :
  (∀ x, String.eqb (Str.lower (g x).1) (Str.lower name) = true) →
  (filter (λ kv, String.eqb (Str.lower kv.1) (Str.lower name) = true)
          (unfolded <$> (g <$> l))).*2
  = (λ x, Str.lstrip_with Email.is_blank (g x).2) <$> l.
Proof.
  intros Hk. induction l as [|x l IH]; [done|].
  rewrite !fmap_cons, filter_cons. cbn [unfolded fst snd].
  rewrite decide_True by done. by rewrite fmap_cons, IH.
Qed.

Lemma _get_list_kept (msg : list (string * string)) (name : string) :
  _get_list msg name
  = kept (filter (λ kv, String.eqb (Str.lower kv.1) (Str.lower name) = true) msg).*2.
Proof.
  unfold _get_list, Email.get_all, kept, Email.Message.
  by destruct (filter _ msg).
Qed.

Lemma kept_unfolded {A} (f : A → string) (l : list A) :
  kept ((λ x, Str.lstrip_with Email.is_blank (f x)) <$> l) = kept (f <$> l).
Proof.
  unfold kept. induction l as [|x l IH]; [done|].
  rewrite !fmap_cons, !filter_cons.
  rewrite strip_unfolded.
  destruct (decide _); [|done]. by rewrite !fmap_cons, strip_unfolded, IH.
Qed.

Ltac skip_matching name :=
  repeat match goal with
         | |- context [filter _ (unfolded <$> ?seg)] =>
             rewrite (matching_skip seg name) by other_names
         end.

Ltac read_list name :=
  rewrite _get_list_kept; unfold dumps_content, fields; cbn [mbind list_bind];
  rewrite ?fmap_app, ?filter_app; skip_matching name;
  rewrite ?app_nil_l, ?app_nil_r.

Section RoundTrip.
Context (reqs : list Dependency.t) (project : RootDependency).

Lemma written_classifiers :
  _get_list (written reqs project) "Classifier" = kept (classifiers project).
Proof.
  unfold written. rewrite _get_list_kept; unfold dumps_content, fields; cbn [mbind list_bind];
  rewrite ?fmap_app, ?filter_app; skip_matching "Classifier";
  rewrite ?app_nil_l, ?app_nil_r.
  rewrite (matching_all "Classifier") by reflexivity.
  by rewrite (kept_unfolded (λ c, c)), list_fmap_id.
Qed.

Lemma written_platforms :
  _get_list (written reqs project) "Platform" = kept (platforms project).
Proof.
  unfold written. read_list "Platform".
  rewrite (matching_all "Platform") by reflexivity.
  by rewrite (kept_unfolded (λ c, c)), list_fmap_id.
Qed.

Lemma written_requires :
  _get_list (written reqs project) "Requires" = kept (_format_req <$> reqs).
Proof.
  unfold written. read_list "Requires".
  rewrite (matching_all "Requires") by reflexivity.
  by rewrite (kept_unfolded _format_req).
Qed.

Lemma written_requires_dist : _get_list (written reqs project) "Requires-Dist" = [].
Proof. unfold written. by read_list "Requires-Dist". Qed.

Lemma written_no_requires_dist :
  Email.get_all (written reqs project) "Requires-Dist" = None.
Proof.
  unfold Email.get_all, written, dumps_content, fields, Email.Message.
  cbn [mbind list_bind].
  rewrite ?fmap_app, ?filter_app; skip_matching "Requires-Dist".
  reflexivity.
Qed.

Lemma written_name :
  Email.get (written reqs project) "Name" = Some (Str.lstrip_with Email.is_blank (raw_name project)).
Proof. reflexivity. Qed.

Lemma written_version :
  Email.get (written reqs project) "Version" = Some (Str.lstrip_with Email.is_blank (version project)).
Proof. reflexivity. Qed.

Lemma written_summary :
  Email.get (written reqs project) "Summary"
  = if Str.nonempty (description project)
    then Some (Str.lstrip_with Email.is_blank (description project)) else None.
Proof.
  unfold written. read_field.
  by destruct (Str.nonempty (description project)).
Qed.

Lemma written_license :
  Email.get (written reqs project) "License"
  = if Str.nonempty (license project)
    then Some (Str.lstrip_with Email.is_blank (license project)) else None.
Proof.
  unfold written. read_field.
  by destruct (Str.nonempty (license project)).
Qed.

Lemma written_keywords :
  Email.get (written reqs project) "Keywords"
  = match keywords project with
    | [] => None
    | kws => Some (Str.lstrip_with Email.is_blank (Str.join "," kws))
    end.
Proof.
  unfold written. read_field. by destruct (keywords project).
Qed.

Lemma written_link key name :
  (key, name) ∈ fields →
  Email.get (written reqs project) name
  = Str.lstrip_with Email.is_blank <$> links project !! key.
Proof.
  intros Hin. unfold fields in Hin.
  repeat (apply elem_of_cons in Hin as [[= -> ->] | Hin]);
    [| | |by apply elem_of_nil in Hin];
    unfold written; read_field;
    by destruct (links project !! _).
Qed.

Lemma written_author :
  Email.get (written reqs project) "author"
  = (λ a, Str.lstrip_with Email.is_blank (Author.name a)) <$> authors project !! 0.
Proof.
  unfold written. read_field. by destruct (authors project).
Qed.

Lemma written_maintainer :
  Email.get (written reqs project) "maintainer"
  = (λ a, Str.lstrip_with Email.is_blank (Author.name a)) <$> authors project !! 1.
Proof.
  unfold written. read_field. by destruct (authors project) as [|a1 [|a2 more]].
Qed.

Lemma written_author_email : Email.get (written reqs project) "author_email" = None.
Proof. unfold written. by read_field. Qed.

Lemma written_maintainer_email : Email.get (written reqs project) "maintainer_email" = None.
Proof. unfold written. by read_field. Qed.


Lemma dumps_field_names :
  Forall (λ kv : string * string, is_field_name kv.1 = true)
         (dumps_content reqs project).
Proof.
  unfold dumps_content, fields. cbn [mbind list_bind].
  repeat (apply Forall_app; split);
    repeat case_match;
    repeat first
      [ apply Forall_nil_2
      | apply Forall_cons_2; [reflexivity|]
      | apply Forall_fmap, Forall_true; intros ?; reflexivity ].
Qed.

Lemma dumps_well_formed :
  one_line reqs project → Forall well_formed_field (dumps_content reqs project).
Proof.
  intros Hone. apply Forall_and. split; [apply dumps_field_names | exact Hone].
Qed.

Lemma readme_tail_is_tail : is_tail (readme_tail project).
Proof.
  unfold readme_tail, is_tail. destruct (readme project); [|by left].
  right; right. eauto.
Qed.

Lemma parsestr_dumps content :
  one_line reqs project →
  Email.parsestr (dumps reqs project content) = written reqs project.
Proof.
  intros Hone. rewrite dumps_document.
  apply parsestr_document; [by apply dumps_well_formed | apply readme_tail_is_tail].
Qed.

Lemma dumps_has_name content :
  Str.contains "Name: " (dumps reqs project content) = true.
Proof.
  rewrite dumps_document.
  apply (contains_field "Name" (raw_name project)).
  unfold dumps_content. set_solver.
Qed.

End RoundTrip.

Lemma _get_present info name value :
  Email.get info name = Some value → _get info name = normalize value.
Proof.
  unfold _get, normalize, UNKNOWN. intros ->.
  by destruct value.
Qed.

Lemma _get_missing info name : Email.get info name = None → _get info name = "".
Proof. unfold _get. by intros ->. Qed.

Lemma normalize_unfolded value :
  normalize (Str.lstrip_with Email.is_blank value) = normalize value.
Proof. unfold normalize. by rewrite strip_unfolded. Qed.


Section DumpsLoads.
Context {env : Environment}.

Lemma declared_written reqs project content :
  one_line reqs project →
  declared_requirements (dumps reqs project content) = kept (_format_req <$> reqs).
Proof.
  intros Hone. unfold declared_requirements. cbv zeta.
  rewrite (parsestr_dumps _ _ _ Hone), written_requires, written_requires_dist.
  apply app_nil_r.
Qed.

(** [loads] of what [dumps] wrote is the header-form parse of the fields
    written. *)
Lemma loads_dumps reqs project content :
  one_line reqs project →
  Forall (λ req, is_Some (PackagingRequirement req)) (kept (_format_req <$> reqs)) →
  ∃ deps, loads (dumps reqs project content) = Ok (parsed (written reqs project) deps).
Proof.
  intros Hone Hreqs. unfold loads. rewrite dumps_has_name.
  destruct (_parse_info_valid (dumps reqs project content)) as [deps Hroot].
  { unfold valid_header_form. by rewrite declared_written. }
  exists deps. by rewrite Hroot, parsestr_dumps.
Qed.

(** X5. [dumps] writes the dependency list it is given and never the
    project's own: whatever [project.dependencies] is set to, the text is
    the same.  When every value written is on one line, the Requires
    values the header-form parser reads from the text are the formatted
    [reqs], in order, trimmed, those that are the sentinel once trimmed
    dropped, and the text has no Requires-Dist field; so the requirement
    strings the text declares are those Requires values. *)
Theorem dumps_writes_given_requirements reqs project content :
  (∀ deps,
     dumps reqs (set_dependencies project deps) content = dumps reqs project content)
  ∧ (one_line reqs project →
     let info := Email.parsestr (dumps reqs project content) in
     _get_list info "Requires" = kept (_format_req <$> reqs)
     ∧ Email.get_all info "Requires-Dist" = None
     ∧ declared_requirements (dumps reqs project content)
       = kept (_format_req <$> reqs)).
Proof.
  split; [reflexivity|]. intros Hone. cbv zeta.
  rewrite (parsestr_dumps _ _ _ Hone). split_and!.
  - apply written_requires.
  - apply written_no_requires_dist.
  - by apply declared_written.
Qed.

(** X1. Round trip of the scalar fields: when every value [dumps] writes
    is on one line and the grammar accepts the requirement lines written,
    [loads] of the text [dumps] produced returns a project whose raw_name,
    description and license are those of the dumped project, trimmed, and
    emptied if they were the sentinel; its version likewise, with "0.0.0"
    in place of an empty result. *)
Theorem round_trip_scalars reqs project content :
  one_line reqs project →
  Forall (λ req, is_Some (PackagingRequirement req)) (kept (_format_req <$> reqs)) →
  ∃ root, loads (dumps reqs project content) = Ok root
          ∧ raw_name root = normalize (raw_name project)
          ∧ version root = Str.or_else (normalize (version project)) "0.0.0"
          ∧ description root = normalize (description project)
          ∧ license root = normalize (license project).
Proof.
  intros Hone Hreqs.
  destruct (loads_dumps reqs project content Hone Hreqs) as [deps Hroot].
  eexists; split; [exact Hroot|].
  rewrite parsed_raw_name, parsed_version, parsed_description, parsed_license.
  rewrite (_get_present _ _ _ (written_name reqs project)),
    (_get_present _ _ _ (written_version reqs project)), !normalize_unfolded.
  split_and!; try done.
  - pose proof (written_summary reqs project) as Hs.
    destruct (description project) as [|c d]; cbn [Str.nonempty] in Hs.
    + by rewrite (_get_missing _ _ Hs).
    + by rewrite (_get_present _ _ _ Hs), normalize_unfolded.
  - pose proof (written_license reqs project) as Hs.
    destruct (license project) as [|c d]; cbn [Str.nonempty] in Hs.
    + by rewrite (_get_missing _ _ Hs).
    + by rewrite (_get_present _ _ _ Hs), normalize_unfolded.
Qed.

(** X2. Round trip of the repeated fields: under the same conditions the
    classifiers and platforms read back are those dumped, each trimmed,
    those that are the sentinel once trimmed dropped.  The keywords read
    back are the comma-split of one string: the keywords dumped, joined
    by commas, that string trimmed and, if it is then the sentinel,
    emptied.  So the keywords are not always those dumped: an empty
    keyword list and the list holding just the sentinel both come back as
    the list holding one empty string. *)
Theorem round_trip_lists reqs project content :
  one_line reqs project →
  Forall (λ req, is_Some (PackagingRequirement req)) (kept (_format_req <$> reqs)) →
  ∃ root, loads (dumps reqs project content) = Ok root
          ∧ classifiers root = kept (classifiers project)
          ∧ platforms root = kept (platforms project)
          ∧ keywords root
            = Str.split_on "," (normalize (Str.join "," (keywords project)))
          ∧ (keywords project = [] ∨ keywords project = [UNKNOWN] →
             keywords root = [""]).
Proof.
  intros Hone Hreqs.
  destruct (loads_dumps reqs project content Hone Hreqs) as [deps Hroot].
  eexists; split; [exact Hroot|].
  rewrite parsed_classifiers, parsed_platforms, parsed_keywords.
  rewrite written_classifiers, written_platforms.
  assert (_get (written reqs project) "Keywords"
          = normalize (Str.join "," (keywords project))) as ->.
  { pose proof (written_keywords reqs project) as Hk.
    destruct (keywords project) as [|k kws].
    - by rewrite (_get_missing _ _ Hk).
    - by rewrite (_get_present _ _ _ Hk), normalize_unfolded. }
  split_and!; try done.
  by intros [-> | ->].
Qed.

(** X3. Round trip of the authors: under the same conditions at most the
    first two authors come back, each only if its trimmed name is neither
    empty nor the sentinel, and every author read back has an empty mail:
    [dumps] writes the mails under Author-email and Maintainer-email while
    [_parse_info] looks for author_email and maintainer_email. *)
Theorem round_trip_authors reqs project content :
  one_line reqs project →
  Forall (λ req, is_Some (PackagingRequirement req)) (kept (_format_req <$> reqs)) →
  ∃ root, loads (dumps reqs project content) = Ok root
          ∧ authors root
            = author_read_back (authors project) 0
              ++ author_read_back (authors project) 1
          ∧ Forall (λ author, Author.mail author = "") (authors root)
          ∧ length (authors root) ≤ 2.
Proof.
  intros Hone Hreqs.
  destruct (loads_dumps reqs project content Hone Hreqs) as [deps Hroot].
  eexists; split; [exact Hroot|].
  assert (authors (parsed (written reqs project) deps)
          = author_read_back (authors project) 0
            ++ author_read_back (authors project) 1) as ->.
  { rewrite parsed_authors.
    rewrite (_get_missing _ _ (written_author_email reqs project)),
      (_get_missing _ _ (written_maintainer_email reqs project)).
    pose proof (written_author reqs project) as Ha.
    pose proof (written_maintainer reqs project) as Hm.
    unfold author_read_back.
    f_equal.
    - destruct (authors project !! 0) as [a|]; cbn [fmap option_fmap option_map] in Ha.
      + by rewrite (_get_present _ _ _ Ha), normalize_unfolded.
      + by rewrite (_get_missing _ _ Ha).
    - destruct (authors project !! 1) as [a|]; cbn [fmap option_fmap option_map] in Hm.
      + by rewrite (_get_present _ _ _ Hm), normalize_unfolded.
      + by rewrite (_get_missing _ _ Hm). }
  split; [done|]. unfold author_read_back.
  destruct (authors project !! 0), (authors project !! 1);
    repeat case_match; cbn [app length]; split; repeat constructor.
Qed.

(** X4. Round trip of the links: under the same conditions the links
    read back are those stored under home, download and project, trimmed,
    a link that is empty or the sentinel once trimmed being dropped; a
    link under any other key is not written and does not come back. *)
Theorem round_trip_links reqs project content :
  one_line reqs project →
  Forall (λ req, is_Some (PackagingRequirement req)) (kept (_format_req <$> reqs)) →
  ∃ root, loads (dumps reqs project content) = Ok root
          ∧ ∀ key,
              links root !! key
              = if bool_decide (key ∈ ["home"; "download"; "project"])
                then match links project !! key with
                     | Some url =>
                         if Str.nonempty (normalize url)
                         then Some (normalize url) else None
                     | None => None
                     end
                else None.
Proof.
  intros Hone Hreqs.
  destruct (loads_dumps reqs project content Hone Hreqs) as [deps Hroot].
  eexists; split; [exact Hroot|]. intros key.
  case_bool_decide as Hkey.
  - assert (∃ name, (key, name) ∈ fields) as [name Hin].
    { unfold fields.
      repeat (apply elem_of_cons in Hkey as [-> | Hkey]);
        [| | |by apply elem_of_nil in Hkey]; eexists; repeat constructor. }
    rewrite (parsed_links _ _ _ _ Hin).
    pose proof (written_link reqs project _ _ Hin) as Hl.
    destruct (links project !! key) as [url|]; cbn [fmap option_fmap option_map] in Hl.
    + by rewrite (_get_present _ _ _ Hl), normalize_unfolded.
    + by rewrite (_get_missing _ _ Hl).
  - destruct (links _ !! key) as [url|] eqn:Hl; [|done].
    apply parsed_links_inv in Hl as (name & Hin & _).
    exfalso. apply Hkey. unfold fields in Hin.
    repeat (apply elem_of_cons in Hin as [[= -> ->] | Hin]);
      [set_solver..|by apply elem_of_nil in Hin].
Qed.

End DumpsLoads.

(** *** The first lines of the text *)

Lemma single_line_no_LF s :
  single_line s = true →
  all_chars (λ c, negb (Ascii.eqb c Str.LF)) s = true.
Proof.
  unfold single_line, Email.is_eol. induction s as [|c s IH]; [done|].
  cbn [all_chars]. intros [Hc Hs]%andb_true_iff.
  apply negb_true_iff, orb_false_iff in Hc as [_ Hc].
  by rewrite Hc, (IH Hs).
Qed.

Lemma lines_cons line rest :
  single_line line = true →
  lines (line +:+ Str.nl +:+ rest) = line :: lines rest.
Proof.
  intros Hline. unfold lines.
  by apply split_on_app, single_line_no_LF.
Qed.

Lemma lines_last line :
  single_line line = true → lines line = [line].
Proof. intros Hline. by apply split_on_no_sep, single_line_no_LF. Qed.

(** X6. Whatever the project and the list, the text [dumps] writes starts
    with Metadata-Version: 2.1, a line end, the Name field, a line end
    and the Version field, and what follows the version is nothing or
    starts with a line end.  So when the name and the version of the
    project are on one line each, the first three lines of the text are
    the line Metadata-Version: 2.1, the Name line and the Version
    line. *)
Theorem dumps_always_starts_with_identity reqs project content :
  ∃ rest,
    dumps reqs project content
    = "Metadata-Version: 2.1" +:+ Str.nl +:+ "Name: " +:+ raw_name project
      +:+ Str.nl +:+ "Version: " +:+ version project +:+ rest
    ∧ (rest = "" ∨ ∃ tail, rest = Str.nl +:+ tail)
    ∧ (single_line (raw_name project) = true →
       single_line (version project) = true →
       ∃ more,
         lines (dumps reqs project content)
         = "Metadata-Version: 2.1" :: ("Name: " +:+ raw_name project)
           :: ("Version: " +:+ version project) :: more).
Proof.
  assert (∃ rest,
            dumps reqs project content
            = "Metadata-Version: 2.1" +:+ Str.nl +:+ "Name: " +:+ raw_name project
              +:+ Str.nl +:+ "Version: " +:+ version project +:+ rest
            ∧ (rest = "" ∨ ∃ tail, rest = Str.nl +:+ tail))
    as (rest & Htext & Hrest).
  { rewrite dumps_document. unfold document, dumps_content. cbn [app].
    rewrite !fmap_cons, !join_cons. unfold field_line at 1 2 3. cbn [fst snd].
    match goal with
    | |- context [Str.join Str.nl (_ :: ?following)] =>
        destruct following as [|next more]
    end.
    - exists (readme_tail project). cbn [Str.join String.concat].
      split; [by rewrite !app_assoc'|].
      unfold readme_tail. destruct (readme project); [right|left]; eauto.
    - rewrite join_cons. eexists. rewrite !app_assoc'. split; [reflexivity|].
      right. eauto. }
  exists rest. split_and!; [done..|]. intros Hname Hversion.
  rewrite Htext.
  rewrite (lines_cons "Metadata-Version: 2.1") by reflexivity.
  assert (single_line ("Name: " +:+ raw_name project) = true) as Hn.
  { unfold single_line. rewrite all_chars_app. by apply andb_true_iff. }
  assert (single_line ("Version: " +:+ version project) = true) as Hv.
  { unfold single_line. rewrite all_chars_app. by apply andb_true_iff. }
  rewrite <- (app_assoc' "Name: "), (lines_cons _ _ Hn).
  rewrite <- (app_assoc' "Version: ").
  destruct Hrest as [-> | [tail ->]].
  - rewrite app_empty_r, (lines_last _ Hv). by exists [].
  - rewrite (lines_cons _ _ Hv). by eexists.
Qed.

(** ** Normal forms, errors and the entry point *)

Example path_spellings :
  Path.normal "./demo.egg-info/" = "demo.egg-info"
  ∧ Path.normal "dist//demo/./x" = "dist/demo/x"
  ∧ Path.normal "/usr//lib/" = "/usr/lib"
  ∧ Path.normal "//usr" = "//usr"
  ∧ Path.normal "///usr" = "/usr"
  ∧ Path.normal "" = "."
  ∧ Path.normal "./" = "."
  ∧ Path.normal "/" = "/"
  ∧ Path.normal "a/.." = "a/..".
Proof. repeat split. Qed.

Example path_names :
  Path.name "dist/demo.egg-info" = "demo.egg-info"
  ∧ Path.name "dist/demo.egg-info/" = "demo.egg-info"
  ∧ Path.name "/" = ""
  ∧ Path.suffix "dist/demo-1.0.tar.gz" = ".gz"
  ∧ Path.suffix "dist/.zip" = ""
  ∧ Path.suffix "dist/demo." = ""
  ∧ Path.suffix "dist.zip/PKG-INFO" = "".
Proof. repeat split. Qed.

(** *** Trimmed values *)

Lemma rstrip_idem p s : Str.rstrip_with p (Str.rstrip_with p s) = Str.rstrip_with p s.
Proof.
  induction s as [|c s IH]; [done|].
  cbn [Str.rstrip_with]. destruct (Str.rstrip_with p s) as [|a r] eqn:Hr.
  - destruct (p c) eqn:Hc; [done|]. cbn [Str.rstrip_with]. by rewrite Hc.
  - cbn [Str.rstrip_with]. cbn [Str.rstrip_with] in IH.
    destruct (Str.rstrip_with p r) as [|a' r'] eqn:Hr'.
    + destruct (p a); [discriminate IH|]. by rewrite IH.
    + by rewrite IH.
Qed.

Lemma rstrip_keeps_head p c s :
  p c = false → ∃ r, Str.rstrip_with p (String c s) = String c r.
Proof.
  intros Hc. cbn [Str.rstrip_with]. rewrite Hc.
  destruct (Str.rstrip_with p s); eauto.
Qed.

Lemma lstrip_head p s :
  Str.lstrip_with p s = ""
  ∨ ∃ c r, Str.lstrip_with p s = String c r ∧ p c = false.
Proof.
  induction s as [|c s IH]; [by left|].
  cbn [Str.lstrip_with]. destruct (p c) eqn:Hc; [done|]. right. eauto.
Qed.

Lemma strip_idem s : Str.strip (Str.strip s) = Str.strip s.
Proof.
  unfold Str.strip.
  destruct (lstrip_head Str.isspace s) as [-> | (c & r & -> & Hc)]; [done|].
  destruct (rstrip_keeps_head Str.isspace c r Hc) as [r' Hr].
  rewrite Hr. cbn [Str.lstrip_with]. rewrite Hc, <- Hr. apply rstrip_idem.
Qed.

Lemma _get_trimmed (info : Email.Message) (name : string) :
  trimmed (_get info name).
Proof.
  unfold trimmed, _get. destruct (Email.get info name) as [value|]; [|done].
  destruct (Str.nonempty value); [|done].
  destruct (String.eqb _ _); [done|]. apply strip_idem.
Qed.

Lemma _get_list_trimmed (info : Email.Message) (name : string) :
  Forall trimmed (_get_list info name).
Proof.
  unfold _get_list. destruct (Email.get_all info name) as [values|]; [|done].
  apply Forall_fmap, Forall_true. intros value. apply strip_idem.
Qed.

Section Parsed.
Context {env : Environment}.

(** X7. What header-form parsing stores is trimmed, the keywords as one
    string only: the raw_name, version, description and license of the
    parsed project, every classifier and platform, every link, every
    author name and mail, and every requirement string handed to the
    grammar have no surrounding whitespace.  The keywords are cut at the
    commas of a trimmed string, so joined by commas again they have none
    either; a single keyword keeps the blanks around it. *)
Theorem parsed_values_are_trimmed (content : string) :
  valid_header_form content →
  ∃ root, _parse_info content = Ok root
          ∧ trimmed (raw_name root)
          ∧ trimmed (version root)
          ∧ trimmed (description root)
          ∧ trimmed (license root)
          ∧ trimmed (Str.join "," (keywords root))
          ∧ Forall trimmed (classifiers root)
          ∧ Forall trimmed (platforms root)
          ∧ Forall trimmed (declared_requirements content)
          ∧ (∀ key url, links root !! key = Some url → trimmed url)
          ∧ Forall (λ author, trimmed (Author.name author)
                              ∧ trimmed (Author.mail author)) (authors root).
Proof.
  intros Hvalid.
  destruct (_parse_info_valid content Hvalid) as [deps Hroot].
  eexists; split; [exact Hroot|].
  rewrite parsed_raw_name, parsed_version, parsed_description, parsed_license,
    parsed_keywords, parsed_classifiers, parsed_platforms, parsed_authors.
  split_and!; try apply _get_trimmed; try apply _get_list_trimmed.
  - unfold Str.or_else. destruct (Str.nonempty _); [apply _get_trimmed|done].
  - rewrite (join_split_on ","). apply _get_trimmed.
  - unfold declared_requirements. apply Forall_app; split; apply _get_list_trimmed.
  - intros key url (name & _ & ->)%parsed_links_inv. apply _get_trimmed.
  - apply Forall_app; split; destruct (Str.nonempty _);
      repeat constructor; apply _get_trimmed.
Qed.

Lemma parsed_readme info deps : readme (parsed info deps) = None.
Proof.
  unfold parsed, attach_dependencies, info_authors, info_links, fields.
  cbn [foldl set_dependencies readme].
  repeat (case_match; cbn [set_authors set_links readme]); reflexivity.
Qed.

(** X8. A project parsed from header-form text has a non-empty version,
    at most two authors, each with a non-empty name, links under the keys
    home, download and project only, each non-empty, and no readme. *)
Theorem parsed_project_shape (content : string) :
  valid_header_form content →
  ∃ root, _parse_info content = Ok root
          ∧ version root ≠ ""
          ∧ length (authors root) ≤ 2
          ∧ Forall (λ author, Author.name author ≠ "") (authors root)
          ∧ (∀ key url, links root !! key = Some url →
               key ∈ ["home"; "download"; "project"] ∧ url ≠ "")
          ∧ readme root = None.
Proof.
  intros Hvalid.
  destruct (_parse_info_valid content Hvalid) as [deps Hroot].
  eexists; split; [exact Hroot|].
  rewrite parsed_version, parsed_authors.
  split_and!.
  - unfold Str.or_else. by destruct (_get _ "Version").
  - rewrite length_app. do 2 destruct (Str.nonempty _); cbn; lia.
  - apply Forall_app; split; destruct (_get _ _) eqn:Hg;
      cbn [Str.nonempty]; by repeat constructor.
  - intros key url Hl. pose proof Hl as (name & Hin & ->)%parsed_links_inv.
    rewrite (parsed_links _ _ _ _ Hin) in Hl. split.
    + unfold fields in Hin.
      repeat (apply elem_of_cons in Hin as [[= -> ->] | Hin]);
        [set_solver..|by apply elem_of_nil in Hin].
    + by destruct (_get _ name).
  - apply parsed_readme.
Qed.

End Parsed.

Section Errors.
Context {env : Environment}.

Lemma collect_deps_rejects root deps (good : list string) bad rest :
  Forall (λ req, is_Some (PackagingRequirement req)) good →
  PackagingRequirement bad = None →
  collect_deps root deps (good ++ bad :: rest) = Raise (InvalidRequirement bad).
Proof.
  intros Hgood Hbad. revert deps.
  induction Hgood as [|req good [r Hr] _ IH]; intros deps.
  - cbn. by rewrite Hbad.
  - cbn [app collect_deps]. rewrite Hr. apply IH.
Qed.

(** X9. A requirement list stops at the first token the grammar rejects:
    [loads] and [_parse_requires] (with or without a project to extend)
    raise the error of that token, whatever follows it, and return no
    project. *)
Theorem loads_first_rejected_token (content : string) (good : list string)
    (bad : string) (rest : list string) :
  Str.contains "Name: " content = false →
  Str.split content = good ++ bad :: rest →
  Forall (λ req, is_Some (PackagingRequirement req)) good →
  PackagingRequirement bad = None →
  loads content = Raise (InvalidRequirement bad)
  ∧ ∀ root, _parse_requires content root = Raise (InvalidRequirement bad).
Proof.
  intros Hroute Hsplit Hgood Hbad.
  assert (∀ root, _parse_requires content root = Raise (InvalidRequirement bad))
    as Hraise.
  { intros root. unfold _parse_requires. rewrite Hsplit.
    by rewrite (collect_deps_rejects _ _ _ _ _ Hgood Hbad). }
  split; [|done]. unfold loads. by rewrite Hroute.
Qed.

(** X10. Header-form parsing reads every Requires value before any
    Requires-Dist value and stops at the first one the grammar rejects:
    [_parse_info] raises the error of that value and returns no project,
    however complete the other fields are. *)
Theorem _parse_info_first_rejected (content : string) (good : list string)
    (bad : string) (rest : list string) :
  declared_requirements content = good ++ bad :: rest →
  Forall (λ req, is_Some (PackagingRequirement req)) good →
  PackagingRequirement bad = None →
  _parse_info content = Raise (InvalidRequirement bad).
Proof.
  intros Hdecl Hgood Hbad. unfold _parse_info. cbv zeta.
  unfold declared_requirements in Hdecl. cbv zeta in Hdecl. rewrite Hdecl.
  by rewrite (collect_deps_rejects _ _ _ _ _ Hgood Hbad).
Qed.

(** *** Blank input *)

Lemma blank_has_no_marker needle s :
  Str.nonempty needle = true →
  (∀ c rest, needle = String c rest → Str.isspace c = false) →
  all_chars Str.isspace s = true → Str.contains needle s = false.
Proof.
  intros Hne Hfirst. induction s as [|c s IH]; intros Hs.
  - by destruct needle.
  - apply andb_true_iff in Hs as [Hc Hs]. cbn [Str.contains].
    rewrite (IH Hs). destruct needle as [|n needle]; [done|].
    cbn [String.prefix]. destruct (ascii_dec n c) as [->|]; [|done].
    rewrite (Hfirst c needle) in Hc; done.
Qed.

Lemma blank_has_no_token s : all_chars Str.isspace s = true → Str.split s = [].
Proof.
  induction s as [|c s IH]; [done|].
  intros [Hc Hs]%andb_true_iff. cbn [Str.split]. rewrite Hc. auto.
Qed.

(** X11. Empty or whitespace-only text is a requirement list without
    tokens: [loads] returns the fresh project named by the name
    heuristic, with the default version and no dependency, and raises
    nothing. *)
Theorem loads_blank (content : string) :
  all_chars Str.isspace content = true →
  loads content = Ok (new_root (_get_name content)).
Proof.
  intros Hblank. unfold loads, _parse_requires.
  rewrite (blank_has_no_marker "Name: " content), (blank_has_no_token content);
    try done.
  by intros c rest [= <- _].
Qed.

(** *** Metadata directories with a file missing *)

Lemma _parse_info_no_requirements (content : string) :
  declared_requirements content = [] →
  _parse_info content = Ok (parsed (Email.parsestr content) []).
Proof.
  intros Hdecl. unfold _parse_info. cbv zeta.
  unfold declared_requirements in Hdecl. cbv zeta in Hdecl. by rewrite Hdecl.
Qed.

(** Without PKG-INFO the directory cannot be loaded. *)
Lemma _load_dir_without_pkg_info (fs : FileSystem) (path : string) :
  fs !! joinpath path "PKG-INFO" = None →
  _load_dir fs [path] = Raise (FileNotFoundError (joinpath path "PKG-INFO")).
Proof. intros Hpkg. unfold _load_dir, read_text. by rewrite Hpkg. Qed.

(** X13. A metadata directory whose PKG-INFO declares no requirement and
    which has no requires.txt cannot be loaded: PKG-INFO itself parses,
    yet [_load_dir] raises [FileNotFoundError] for requires.txt. *)
Theorem _load_dir_without_requires_txt (fs : FileSystem)
    (path pkg_info : string) :
  fs !! joinpath path "PKG-INFO" = Some pkg_info →
  declared_requirements pkg_info = [] →
  fs !! joinpath path "requires.txt" = None →
  (∃ root, _parse_info pkg_info = Ok root)
  ∧ _load_dir fs [path] = Raise (FileNotFoundError (joinpath path "requires.txt")).
Proof.
  intros Hpkg Hdecl Hreq. split.
  - eexists. by apply _parse_info_no_requirements.
  - unfold _load_dir, read_text. rewrite Hpkg. cbn [mbind Result_bind].
    rewrite (_parse_info_no_requirements _ Hdecl). cbn [mbind Result_bind].
    rewrite parsed_dependencies. cbn [foldl]. by rewrite Hreq.
Qed.

Lemma from_requirement_nonempty root req : from_requirement root req ≠ [].
Proof. unfold from_requirement. by destruct (Requirement.extras req). Qed.

Lemma attach_nonempty d deps : foldl attach_one [] (d :: deps) ≠ [].
Proof.
  cbn [foldl]. unfold attach_one at 2. cbn.
  assert (∀ new acc, acc ≠ [] → foldl attach_one acc new ≠ []) as Hkeep.
  { induction new as [|x new IH]; intros acc Hacc; [done|].
    cbn [foldl]. apply IH. unfold attach_one. case_bool_decide; [done|].
    by destruct acc. }
  by apply Hkeep.
Qed.

(** X14. When PKG-INFO declares at least one requirement (and the
    grammar accepts all it declares), [_load_dir] returns the parse of
    PKG-INFO, with at least one dependency, and requires.txt is not
    read: it may be missing or hold anything. *)
Theorem _load_dir_skips_requires_txt (fs : FileSystem) (path pkg_info : string) :
  fs !! joinpath path "PKG-INFO" = Some pkg_info →
  valid_header_form pkg_info →
  declared_requirements pkg_info ≠ [] →
  _load_dir fs [path] = _parse_info pkg_info
  ∧ ∃ root, _parse_info pkg_info = Ok root ∧ dependencies root ≠ [].
Proof.
  intros Hpkg Hvalid Hdecl.
  destruct (mapM_is_Some _ Hvalid) as [reqs Hreqs].
  assert (_parse_info pkg_info
          = Ok (parsed (Email.parsestr pkg_info)
                  (concat (from_requirement
                             (info_authors (Email.parsestr pkg_info)
                                (info_links (Email.parsestr pkg_info)
                                   (info_root (Email.parsestr pkg_info))))
                           <$> reqs)))) as Hinfo.
  { unfold _parse_info. cbv zeta.
    by rewrite (collect_deps_app _ _ _ _ Hreqs). }
  assert (dependencies (parsed (Email.parsestr pkg_info)
                  (concat (from_requirement
                             (info_authors (Email.parsestr pkg_info)
                                (info_links (Email.parsestr pkg_info)
                                   (info_root (Email.parsestr pkg_info))))
                           <$> reqs))) ≠ []) as Hdeps.
  { rewrite parsed_dependencies.
    destruct reqs as [|r reqs].
    - apply mapM_Some, Forall2_nil_inv_r in Hreqs. done.
    - rewrite fmap_cons, concat_cons.
      pose proof (from_requirement_nonempty
                    (info_authors (Email.parsestr pkg_info)
                       (info_links (Email.parsestr pkg_info)
                          (info_root (Email.parsestr pkg_info)))) r) as Hne.
      destruct (from_requirement _ r) as [|d ds]; [done|].
      apply attach_nonempty. }
  split; [|eauto].
  unfold _load_dir, read_text. rewrite Hpkg. cbn [mbind Result_bind].
  rewrite Hinfo. cbn [mbind Result_bind].
  by destruct (dependencies _).
Qed.

End Errors.

(** *** Archive names *)

Lemma length_append s t :
  String.length (s +:+ t) = String.length s + String.length t.
Proof. induction s as [|c s IH]; [done|]. cbn. by rewrite <- IH. Qed.

Lemma from_last_dot_None e :
  all_chars (λ c, negb (Ascii.eqb c ".")) e = true → Path.from_last_dot e = None.
Proof.
  induction e as [|c e IH]; [done|].
  intros [Hc%negb_true_iff He]%andb_true_iff.
  cbn [Path.from_last_dot]. by rewrite (IH He), Hc.
Qed.

Lemma from_last_dot_ext stem e :
  all_chars (λ c, negb (Ascii.eqb c ".")) e = true →
  Path.from_last_dot (stem +:+ String "." e) = Some (String "." e).
Proof.
  intros He. induction stem as [|c stem IH].
  - change ("" +:+ String "." e) with (String "." e).
    cbn [Path.from_last_dot]. by rewrite (from_last_dot_None e He).
  - change (String c stem +:+ String "." e) with (String c (stem +:+ String "." e)).
    cbn [Path.from_last_dot]. by rewrite IH.
Qed.

Lemma from_last_dot_Some name ext :
  Path.from_last_dot name = Some ext → ∃ stem, name = stem +:+ ext.
Proof.
  revert ext. induction name as [|c name IH]; intros ext; [done|].
  cbn [Path.from_last_dot].
  destruct (Path.from_last_dot name) as [ext'|].
  - intros [= <-]. destruct (IH ext' eq_refl) as [stem ->].
    by exists (String c stem).
  - destruct (Ascii.eqb c "."); [|done]. intros [= <-]. by exists "".
Qed.

Ltac not_listed Hin :=
  repeat (apply elem_of_cons in Hin as [Hin' | Hin]; [discriminate Hin'|]);
  by apply elem_of_nil in Hin.

Lemma suffix_is_archive (path : string) :
  Path.suffix path ∈ [".zip"; ".gz"; ".tar"] ↔ archive_name (Path.name path).
Proof.
  unfold Path.suffix, archive_name. cbv zeta. split.
  - destruct (Path.from_last_dot (Path.name path)) as [ext|] eqn:Hdot;
      [|intros Hin; not_listed Hin].
    destruct (from_last_dot_Some _ _ Hdot) as [stem Hname].
    rewrite Hname, length_append.
    destruct stem as [|c stem].
    { cbn [String.length]. replace (0 + String.length ext - String.length ext)
        with 0 by lia. cbn [Nat.ltb Nat.leb andb]. intros Hin. not_listed Hin. }
    destruct (_ && _); [|intros Hin; not_listed Hin].
    intros Hin. exists (String c stem).
    repeat (apply elem_of_cons in Hin as [-> | Hin]);
      [exists "zip" | exists "gz" | exists "tar" | by apply elem_of_nil in Hin];
      (split_and!; [done | set_solver | done]).
  - intros (stem & ext & Hstem & Hext & ->).
    assert (all_chars (λ c, negb (Ascii.eqb c ".")) ext = true
            ∧ 1 ≤ String.length ext) as [Hnodot Hlen].
    { repeat (apply elem_of_cons in Hext as [-> | Hext]);
        [| | |by apply elem_of_nil in Hext]; split; cbn; done || lia. }
    change (stem +:+ "." +:+ ext) with (stem +:+ String "." ext).
    rewrite (from_last_dot_ext _ _ Hnodot), length_append.
    cbn [String.length].
    assert (1 ≤ String.length stem) by (destruct stem; [done|cbn; lia]).
    replace ((0 <? _) && _) with true.
    + repeat (apply elem_of_cons in Hext as [-> | Hext]);
        [set_solver..|by apply elem_of_nil in Hext].
    + symmetry. apply andb_true_iff. split; [apply Nat.ltb_lt|apply Nat.ltb_lt]; lia.
Qed.

Lemma endswith_spec s suffix :
  Path.endswith s suffix = true ↔ ∃ stem, s = stem +:+ suffix.
Proof.
  split.
  - induction s as [|c s IH]; cbn [Path.endswith].
    + destruct (String.eqb_spec "" suffix) as [<-|]; [by exists ""|done].
    + destruct (String.eqb_spec (String c s) suffix) as [<-|]; [by exists ""|].
      intros [stem ->]%IH. by exists (String c stem).
  - intros [stem ->]. induction stem as [|c stem IH].
    + change ("" +:+ suffix) with suffix.
      destruct suffix; cbn [Path.endswith]; by rewrite ?String.eqb_refl.
    + change (String c stem +:+ suffix) with (String c (stem +:+ suffix)).
      cbn [Path.endswith]. rewrite IH. by destruct (String.eqb _ _).
Qed.

(** *** Spellings of a path *)

Lemma split_on_parts sep s :
  Forall (λ part, all_chars (λ c, negb (Ascii.eqb c sep)) part = true)
         (Str.split_on sep s).
Proof.
  induction s as [|c s IH]; [by repeat constructor|].
  cbn [Str.split_on]. destruct (Ascii.eqb c sep) eqn:Hc.
  - by constructor.
  - destruct (Str.split_on sep s) as [|w ws]; [by repeat constructor; cbn; rewrite Hc|].
    apply Forall_cons in IH as [Hw Hws]. constructor; [|done].
    cbn [all_chars]. by rewrite Hc, Hw.
Qed.

Lemma split_on_join sep (ps : list string) :
  Forall (λ part, all_chars (λ c, negb (Ascii.eqb c sep)) part = true) ps →
  ps ≠ [] →
  Str.split_on sep (Str.join (String sep "") ps) = ps.
Proof.
  induction 1 as [|p ps Hp Hps IH]; [done|]. intros _.
  destruct ps as [|q ps].
  - cbn. by apply split_on_no_sep.
  - rewrite join_cons. change (String sep "" +:+ ?t) with (String sep t).
    rewrite split_on_app by done. by rewrite IH.
Qed.

Lemma filter_keeps_Forall {A} (P Q : A → Prop) `{∀ x, Decision (P x)} (l : list A) :
  Forall Q l → Forall Q (filter P l).
Proof.
  induction 1 as [|x l Hx _ IH]; [constructor|].
  rewrite filter_cons. destruct (decide (P x)); [by constructor|done].
Qed.

Lemma filter_all {A} (P : A → Prop) `{∀ x, Decision (P x)} (l : list A) :
  Forall P l → filter P l = l.
Proof.
  induction 1 as [|x l Hx _ IH]; [done|].
  by rewrite filter_cons, decide_True, IH.
Qed.

Lemma filter_holds {A} (P : A → Prop) `{∀ x, Decision (P x)} (l : list A) :
  Forall P (filter P l).
Proof.
  induction l as [|x l IH]; [constructor|].
  rewrite filter_cons. destruct (decide (P x)); [by constructor|done].
Qed.

Lemma parts_normal path : Path.parts (Path.normal path) = Path.parts path.
Proof.
  unfold Path.normal.
  assert (Forall (λ part, all_chars (λ c, negb (Ascii.eqb c "/")) part = true)
            (Path.parts path)) as Hslash.
  { unfold Path.parts. apply filter_keeps_Forall, split_on_parts. }
  assert (Forall (λ part, part ≠ "" ∧ part ≠ ".") (Path.parts path)) as Hparts.
  { unfold Path.parts. apply filter_holds. }
  destruct (Path.parts path) as [|p ps] eqn:Hps.
  - unfold Path.root. by destruct (Path.leading_slashes path) as [|[|[|n]]].
  - pose proof (split_on_join "/" (p :: ps) Hslash) as Hsplit.
    assert (∃ c j, Str.join "/" (p :: ps) = String c j) as (c & j & Hj).
    { apply Forall_cons in Hparts as [[Hp _] _].
      destruct p as [|c p]; [done|]. destruct ps; cbn; eauto. }
    rewrite Hj in *.
    assert (filter (λ part, part ≠ "" ∧ part ≠ ".") (Str.split_on "/" (String c j))
            = p :: ps) as Hfilter.
    { rewrite Hsplit by done. by apply filter_all. }
    unfold Path.root.
    destruct (Path.leading_slashes path) as [|[|[|n]]]; unfold Path.parts;
      [ change ("" +:+ String c j) with (String c j)
      | change ("/" +:+ String c j) with (String "/" (String c j))
      | change ("//" +:+ String c j) with (String "/" (String "/" (String c j)))
      | change ("/" +:+ String c j) with (String "/" (String c j)) ];
      cbv iota; try done;
      cbn [Str.split_on]; rewrite ?Ascii.eqb_refl; cbv iota;
      rewrite ?filter_cons, ?decide_False by (by intros [? _]);
      done.
Qed.

Lemma name_normal path : Path.name (Path.normal path) = Path.name path.
Proof. unfold Path.name. by rewrite parts_normal. Qed.

Lemma suffix_normal path : Path.suffix (Path.normal path) = Path.suffix path.
Proof. unfold Path.suffix. cbv zeta. by rewrite name_normal. Qed.

Section LoadDispatch.
Context {env : Environment}.

(** X15. [load] looks at the path as [Path(str(path))] spells it. When
    that is a directory whose own name ends in [.egg-info], it is loaded
    as the metadata directory itself: the result is that of [_load_dir]
    on this one normalised path.  The recursive search, archives and
    readme discovery play no part: the result is the same wherever the
    text files are the same and the path is a directory. *)
Theorem load_egg_info_directory (st : Storage) (path : string) :
  is_dir st (Path.normal path) = true →
  (∃ stem, Path.name path = stem +:+ ".egg-info") →
  load st path = _load_dir (files st) [Path.normal path]
  ∧ ∀ st', files st' = files st → is_dir st' (Path.normal path) = true →
           load st' path = load st path.
Proof.
  intros Hdir Hname%endswith_spec.
  assert (∀ st', is_dir st' (Path.normal path) = true →
                 load st' path = _load_dir (files st') [Path.normal path])
    as Hload.
  { intros st' Hdir'. unfold load. cbv zeta.
    by rewrite Hdir', name_normal, Hname. }
  split; [by apply Hload|].
  intros st' Hfiles Hdir'. by rewrite !Hload, Hfiles.
Qed.

(** X16. Any other directory is searched from its normalised path:
    [load] fails with the not-found error when the search finds no
    metadata directory, with the too-many error when it finds several,
    and loads the one found otherwise. *)
Theorem load_searches_directory (st : Storage) (path : string) :
  is_dir st (Path.normal path) = true →
  (¬ ∃ stem, Path.name path = stem +:+ ".egg-info") →
  load st path
  = match glob_egg_info st (Path.normal path) with
    | [] => Raise (FileNotFoundError "cannot find egg-info")
    | [found] => _load_dir (files st) [found]
    | _ => Raise (FileExistsError "too many egg-info")
    end.
Proof.
  intros Hdir Hname. unfold load. cbv zeta. rewrite Hdir, name_normal.
  destruct (Path.endswith _ _) eqn:Hends.
  { by apply endswith_spec in Hends. }
  by destruct (glob_egg_info st (Path.normal path)) as [|p1 [|p2 more]].
Qed.

(** X17. A path whose normalised spelling is no directory and whose name
    is a non-empty stem followed by [.zip], [.gz] or [.tar] is opened as
    an archive: the project is the one [_load_dir] finds among the
    archive's own files, with the readme discovered in the archive put in
    place of its readme and nothing else changed; an error of [_load_dir]
    is passed on. *)
Theorem load_archive (st : Storage) (path : string) :
  is_dir st (Path.normal path) = false →
  archive_name (Path.name path) →
  load st path
  = match _load_dir (archive_files st (Path.normal path))
            (archive_glob_egg_info st (Path.normal path)) with
    | Ok root => Ok (set_readme root (discover st (Path.normal path)))
    | Raise e => Raise e
    end.
Proof.
  intros Hdir Hname%suffix_is_archive. unfold load. cbv zeta.
  by rewrite Hdir, suffix_normal, bool_decide_eq_true_2.
Qed.

(** X18. Every other path is read as a text file, at its normalised
    spelling, and handed to [loads]; this includes names such as [.zip]
    (no stem), [demo.tgz] or [demo.whl]. A missing file raises
    [FileNotFoundError]. *)
Theorem load_text_file (st : Storage) (path : string) :
  is_dir st (Path.normal path) = false →
  ¬ archive_name (Path.name path) →
  load st path
  = match files st !! Path.normal path with
    | Some content => loads content
    | None => Raise (FileNotFoundError (Path.normal path))
    end.
Proof.
  intros Hdir Hname. unfold load, read_text. cbv zeta.
  rewrite Hdir, suffix_normal,
    bool_decide_eq_false_2 by (by rewrite suffix_is_archive).
  by destruct (files st !! Path.normal path).
Qed.

End LoadDispatch.

Lemma get_name_case_absent (info : Email.Message) (a b : string) :
  Str.lower a = Str.lower b →
  absent_or_blank info a ↔ absent_or_blank info b.
Proof.
  intros Hab. unfold absent_or_blank.
  by rewrite (get_name_case info a b Hab).
Qed.

Section Missing.
Context {env : Environment}.

(** X12. A missing or blank field is not an error: in the project
    parsed from valid header-form text a missing or blank Name, Summary
    or License leaves raw_name, description or license empty, a missing
    or blank link field stores no link, missing Author and Maintainer
    give no author, missing Classifier or Platform fields give empty
    lists, and no declared requirement gives no dependency. *)
Theorem missing_fields_are_empty (content : string) :
  valid_header_form content →
  ∃ root, _parse_info content = Ok root ∧
    let info := Email.parsestr content in
    (absent_or_blank info "Name" → raw_name root = "")
    ∧ (absent_or_blank info "Summary" → description root = "")
    ∧ (absent_or_blank info "License" → license root = "")
    ∧ (∀ key name, (key, name) ∈ fields → absent_or_blank info name →
         links root !! key = None)
    ∧ (absent_or_blank info "Author" → absent_or_blank info "Maintainer" →
         authors root = [])
    ∧ (Email.get_all info "Classifier" = None → classifiers root = [])
    ∧ (Email.get_all info "Platform" = None → platforms root = [])
    ∧ (declared_requirements content = [] → dependencies root = []).
Proof.
  intros Hvalid.
  destruct (_parse_info_valid content Hvalid) as [deps Hroot].
  eexists; split; [exact Hroot|]. cbv zeta.
  rewrite parsed_raw_name, parsed_description, parsed_license,
    parsed_classifiers, parsed_platforms, parsed_authors.
  split_and!.
  - intros Ha. by rewrite (_get_absent _ _ Ha).
  - intros Ha. by rewrite (_get_absent _ _ Ha).
  - intros Ha. by rewrite (_get_absent _ _ Ha).
  - intros key name Hin Ha.
    by rewrite (parsed_links _ _ _ _ Hin), (_get_absent _ _ Ha).
  - intros Ha Hm.
    rewrite (_get_absent _ "author"), (_get_absent _ "maintainer"); [done|..].
    + by apply (get_name_case_absent _ "Maintainer" "maintainer").
    + by apply (get_name_case_absent _ "Author" "author").
  - unfold _get_list. by intros ->.
  - unfold _get_list. by intros ->.
  - intros Hdecl. pose proof (_parse_info_no_requirements _ Hdecl) as Hnone.
    assert (parsed (Email.parsestr content) deps
            = parsed (Email.parsestr content) []) as -> by congruence.
    by rewrite parsed_dependencies.
Qed.

End Missing.

(** ** Dependencies written and read back *)

Section DependencyRoundTrip.
Context {env : Environment}.

Lemma kept_read_back (reqs : list Dependency.t) :
  Forall read_back reqs →
  kept (_format_req <$> reqs) = (λ d, Str.strip (_format_req d)) <$> reqs.
Proof.
  unfold kept. induction 1 as [|d reqs (_ & Hns & _) _ IH]; [done|].
  rewrite !fmap_cons, filter_cons, decide_True.
  - by rewrite fmap_cons, IH.
  - by apply String.eqb_neq.
Qed.

Lemma mapM_read_back (reqs : list Dependency.t) :
  Forall read_back reqs →
  mapM PackagingRequirement ((λ d, Str.strip (_format_req d)) <$> reqs)
  = Some (as_requirement <$> reqs).
Proof.
  intros Hreqs. apply mapM_Some, Forall2_fmap.
  apply Forall_Forall2_diag. eapply Forall_impl; [exact Hreqs|].
  by intros d (_ & _ & Hd).
Qed.

(** X19. Round trip of the dependencies: when every value written is on
    one line, the dependencies given to [dumps] have no extras and
    pairwise distinct names, no formatted requirement is the sentinel
    once trimmed (such a line is dropped on reading), and the grammar
    reads each formatted requirement, trimmed, back as the name, version
    and markers it was made of, [loads] of the dumped text returns a
    project whose dependencies are those given, in order, each referring
    back to the loaded project. *)
Theorem round_trip_dependencies reqs project content :
  one_line reqs project →
  Forall (λ d, Dependency.extras d = []) reqs →
  Forall (λ d, Str.strip (_format_req d) ≠ UNKNOWN) reqs →
  Forall (λ d, PackagingRequirement (Str.strip (_format_req d))
               = Some (Requirement.mk (Dependency.name d) []
                         (Dependency.version d) (Dependency.markers d))) reqs →
  NoDup (Dependency.name <$> reqs) →
  ∃ root, loads (dumps reqs project content) = Ok root
          ∧ Dependency.unsourced <$> dependencies root
            = Dependency.unsourced <$> reqs
          ∧ Forall (λ d, Dependency.source d = raw_name root) (dependencies root).
Proof.
  intros Hone Hplain Hsentinel Hgrammar Hnames.
  assert (Forall read_back reqs) as Hreqs.
  { apply Forall_forall. intros d Hd. split_and!.
    - by apply (proj1 (Forall_forall _ _) Hplain).
    - by apply (proj1 (Forall_forall _ _) Hsentinel).
    - by apply (proj1 (Forall_forall _ _) Hgrammar). }
  clear Hplain Hsentinel Hgrammar.
  pose proof (mapM_read_back reqs Hreqs) as Hparsed.
  rewrite <- (kept_read_back reqs Hreqs) in Hparsed.
  rewrite <- (declared_written reqs project content Hone) in Hparsed.
  unfold loads. rewrite dumps_has_name. unfold _parse_info. cbv zeta.
  unfold declared_requirements in Hparsed. cbv zeta in Hparsed.
  rewrite (collect_deps_app _ _ _ _ Hparsed), app_nil_l.
  rewrite from_plain_requirements; last first.
  { apply Forall_fmap, Forall_true. done. }
  eexists; split; [reflexivity|].
  cbn [attach_dependencies set_dependencies dependencies raw_name].
  assert (dependencies (info_authors (Email.parsestr (dumps reqs project content))
            (info_links (Email.parsestr (dumps reqs project content))
               (info_root (Email.parsestr (dumps reqs project content))))) = [])
    as ->.
  { pose proof (parsed_dependencies
                  (Email.parsestr (dumps reqs project content)) []) as Hd.
    exact Hd. }
  rewrite attach_fresh; rewrite app_nil_l.
  - split.
    + rewrite <- !list_fmap_compose. apply list_fmap_ext.
      intros i d Hd. apply (Forall_lookup_1 _ _ _ _ Hreqs) in Hd as (Hextras & _).
      unfold Dependency.unsourced, plain_record, as_requirement. cbn.
      by rewrite Hextras.
    + apply Forall_fmap, Forall_fmap, Forall_true. done.
  - rewrite <- !list_fmap_compose.
    change (Dependency.key ∘ _ ∘ as_requirement)
      with ((λ name : string, (name, @nil string)) ∘ Dependency.name).
    rewrite list_fmap_compose. apply NoDup_fmap_2; [|done].
    by intros ?? [= ->].
Qed.

End DependencyRoundTrip.

(** ** More scenarios, run *)

Lemma round_trip_scalars_witness :
  one_line [six] sample_project
  ∧ Forall (λ req, is_Some (PackagingRequirement (Environment := Sample.env) req))
           (kept (_format_req <$> [six]))
  ∧ ∃ root, loads (env := Sample.env) (dumps [six] sample_project None) = Ok root
            ∧ raw_name root = normalize (raw_name sample_project)
            ∧ version root = Str.or_else (normalize (version sample_project)) "0.0.0"
            ∧ description root = normalize (description sample_project)
            ∧ license root = normalize (license sample_project).
Proof.
  assert (one_line [six] sample_project) as Hone by (unfold one_line; run).
  assert (Forall (λ req, is_Some (PackagingRequirement (Environment := Sample.env) req))
            (kept (_format_req <$> [six]))) as Hreqs by run.
  split_and!; try assumption.
  apply (round_trip_scalars (env := Sample.env) [six] sample_project None Hone Hreqs).
Defined.

Lemma round_trip_lists_witness :
  one_line [six] sample_project
  ∧ Forall (λ req, is_Some (PackagingRequirement (Environment := Sample.env) req))
           (kept (_format_req <$> [six]))
  ∧ ∃ root, loads (env := Sample.env) (dumps [six] sample_project None) = Ok root
            ∧ classifiers root = kept (classifiers sample_project)
            ∧ platforms root = kept (platforms sample_project)
            ∧ keywords root
              = Str.split_on "," (normalize (Str.join "," (keywords sample_project)))
            ∧ (keywords sample_project = [] ∨ keywords sample_project = [UNKNOWN] →
               keywords root = [""]).
Proof.
  assert (one_line [six] sample_project) as Hone by (unfold one_line; run).
  assert (Forall (λ req, is_Some (PackagingRequirement (Environment := Sample.env) req))
            (kept (_format_req <$> [six]))) as Hreqs by run.
  split_and!; try assumption.
  apply (round_trip_lists (env := Sample.env) [six] sample_project None Hone Hreqs).
Defined.

(** Keywords that do not come back: the list holding just the sentinel. *)
Example sentinel_keyword_is_emptied :
  ∃ root, loads (env := Sample.env)
            (dumps [] sentinel_keyword_project None) = Ok root
          ∧ keywords root = [""].
Proof. eexists. split; [vm_compute; reflexivity|]. done. Qed.

Lemma round_trip_authors_witness :
  one_line [six] sample_project
  ∧ Forall (λ req, is_Some (PackagingRequirement (Environment := Sample.env) req))
           (kept (_format_req <$> [six]))
  ∧ ∃ root, loads (env := Sample.env) (dumps [six] sample_project None) = Ok root
            ∧ authors root
              = author_read_back (authors sample_project) 0
                ++ author_read_back (authors sample_project) 1
            ∧ Forall (λ author, Author.mail author = "") (authors root)
            ∧ length (authors root) ≤ 2.
Proof.
  assert (one_line [six] sample_project) as Hone by (unfold one_line; run).
  assert (Forall (λ req, is_Some (PackagingRequirement (Environment := Sample.env) req))
            (kept (_format_req <$> [six]))) as Hreqs by run.
  split_and!; try assumption.
  apply (round_trip_authors (env := Sample.env) [six] sample_project None Hone Hreqs).
Defined.

Lemma round_trip_links_witness :
  one_line [six] sample_project
  ∧ Forall (λ req, is_Some (PackagingRequirement (Environment := Sample.env) req))
           (kept (_format_req <$> [six]))
  ∧ ∃ root, loads (env := Sample.env) (dumps [six] sample_project None) = Ok root
            ∧ ∀ key,
                links root !! key
                = if bool_decide (key ∈ ["home"; "download"; "project"])
                  then match links sample_project !! key with
                       | Some url =>
                           if Str.nonempty (normalize url)
                           then Some (normalize url) else None
                       | None => None
                       end
                  else None.
Proof.
  assert (one_line [six] sample_project) as Hone by (unfold one_line; run).
  assert (Forall (λ req, is_Some (PackagingRequirement (Environment := Sample.env) req))
            (kept (_format_req <$> [six]))) as Hreqs by run.
  split_and!; try assumption.
  apply (round_trip_links (env := Sample.env) [six] sample_project None Hone Hreqs).
Defined.

Lemma dumps_writes_given_requirements_witness :
  one_line [six] sample_project
  ∧ dumps [six] (set_dependencies sample_project [six; six]) None
    = dumps [six] sample_project None
  ∧ _get_list (Email.parsestr (dumps [six] sample_project None)) "Requires"
    = ["six>=1.10"]
  ∧ Email.get_all (Email.parsestr (dumps [six] sample_project None)) "Requires-Dist"
    = None
  ∧ declared_requirements (dumps [six] sample_project None) = ["six>=1.10"].
Proof.
  assert (one_line [six] sample_project) as Hone by (unfold one_line; run).
  split; [exact Hone|].
  destruct (dumps_writes_given_requirements [six] sample_project None)
    as [Hsame Hread].
  destruct (Hread Hone) as (Hrequires & Hdist & Hdeclared).
  split_and!.
  - apply Hsame.
  - rewrite Hrequires. run.
  - exact Hdist.
  - rewrite Hdeclared. run.
Defined.

Lemma dumps_always_starts_with_identity_witness :
  single_line (raw_name sample_project) = true
  ∧ single_line (version sample_project) = true
  ∧ ∃ more,
      lines (dumps [six] sample_project None)
      = "Metadata-Version: 2.1" :: "Name: demo" :: "Version: 1.2.3" :: more.
Proof.
  assert (single_line (raw_name sample_project) = true) as Hname by run.
  assert (single_line (version sample_project) = true) as Hversion by run.
  split_and!; try assumption.
  destruct (dumps_always_starts_with_identity [six] sample_project None)
    as (rest & _ & _ & Hlines).
  exact (Hlines Hname Hversion).
Defined.

Lemma parsed_values_are_trimmed_witness :
  valid_header_form (env := Sample.env) spaced_text
  ∧ ∃ root, _parse_info (env := Sample.env) spaced_text = Ok root
            ∧ raw_name root = "demo"
            ∧ trimmed (raw_name root)
            ∧ keywords root = ["a"; " b"]
            ∧ trimmed (Str.join "," (keywords root))
            ∧ classifiers root = ["X"]
            ∧ Forall trimmed (classifiers root)
            ∧ authors root = [Author.mk "Jane" ""]
            ∧ Forall (λ author, trimmed (Author.name author)
                                ∧ trimmed (Author.mail author)) (authors root).
Proof.
  assert (valid_header_form (env := Sample.env) spaced_text)
    as Hvalid by (unfold valid_header_form; run).
  split; [exact Hvalid|].
  destruct (parsed_values_are_trimmed (env := Sample.env) spaced_text Hvalid)
    as (root & Hroot & Hname & _ & _ & _ & Hkeywords & Hclassifiers & _ & _ & _
        & Hauthors).
  assert (_parse_info (env := Sample.env) spaced_text
          = Ok (parsed (Email.parsestr spaced_text) [])) as Hrun by run.
  assert (root = parsed (Email.parsestr spaced_text) []) as Hparsed by congruence.
  exists root. split_and!; try assumption; rewrite Hparsed; run.
Defined.

Lemma parsed_project_shape_witness :
  valid_header_form (env := Sample.env) maintainer_only_text
  ∧ ∃ root, _parse_info (env := Sample.env) maintainer_only_text = Ok root
            ∧ version root ≠ ""
            ∧ length (authors root) ≤ 2
            ∧ Forall (λ author, Author.name author ≠ "") (authors root)
            ∧ (∀ key url, links root !! key = Some url →
                 key ∈ ["home"; "download"; "project"] ∧ url ≠ "")
            ∧ readme root = None.
Proof.
  assert (valid_header_form (env := Sample.env) maintainer_only_text)
    as Hvalid by (unfold valid_header_form; run).
  split; [exact Hvalid|].
  apply (parsed_project_shape (env := Sample.env) maintainer_only_text Hvalid).
Defined.

Lemma loads_first_rejected_token_witness :
  Str.contains "Name: " rejected_list = false
  ∧ Str.split rejected_list = ["six"] ++ "[bad]" :: ["requests"]
  ∧ Forall (λ req, is_Some (PackagingRequirement (Environment := Sample.env) req)) ["six"]
  ∧ PackagingRequirement (Environment := Sample.env) "[bad]" = None
  ∧ loads (env := Sample.env) rejected_list = Raise (InvalidRequirement "[bad]")
  ∧ ∀ root, _parse_requires (env := Sample.env) rejected_list root
            = Raise (InvalidRequirement "[bad]").
Proof.
  assert (Str.contains "Name: " rejected_list = false) as Hroute by run.
  assert (Str.split rejected_list = ["six"] ++ "[bad]" :: ["requests"])
    as Hsplit by run.
  assert (Forall (λ req, is_Some (PackagingRequirement (Environment := Sample.env) req))
            ["six"]) as Hgood by run.
  assert (PackagingRequirement (Environment := Sample.env) "[bad]" = None)
    as Hbad by run.
  split_and!; try assumption;
    apply (loads_first_rejected_token (env := Sample.env) rejected_list
             ["six"] "[bad]" ["requests"] Hroute Hsplit Hgood Hbad).
Defined.

Lemma _parse_info_first_rejected_witness :
  declared_requirements rejected_text = ["six"; "requests"] ++ "[bad]" :: []
  ∧ Forall (λ req, is_Some (PackagingRequirement (Environment := Sample.env) req))
           ["six"; "requests"]
  ∧ PackagingRequirement (Environment := Sample.env) "[bad]" = None
  ∧ _parse_info (env := Sample.env) rejected_text = Raise (InvalidRequirement "[bad]").
Proof.
  assert (declared_requirements rejected_text = ["six"; "requests"] ++ "[bad]" :: [])
    as Hdecl by run.
  assert (Forall (λ req, is_Some (PackagingRequirement (Environment := Sample.env) req))
            ["six"; "requests"]) as Hgood by run.
  assert (PackagingRequirement (Environment := Sample.env) "[bad]" = None)
    as Hbad by run.
  split_and!; try assumption.
  apply (_parse_info_first_rejected (env := Sample.env) rejected_text
           ["six"; "requests"] "[bad]" [] Hdecl Hgood Hbad).
Defined.

Lemma loads_blank_witness :
  all_chars Str.isspace ("  " +:+ Str.nl) = true
  ∧ loads (env := Sample.env) ("  " +:+ Str.nl)
    = Ok (new_root (_get_name (Environment := Sample.env) ("  " +:+ Str.nl))).
Proof.
  assert (all_chars Str.isspace ("  " +:+ Str.nl) = true) as Hblank by run.
  split; [exact Hblank|].
  apply (loads_blank (env := Sample.env) ("  " +:+ Str.nl) Hblank).
Defined.

Lemma missing_fields_are_empty_witness :
  valid_header_form (env := Sample.env) name_only_text
  ∧ ∃ root, _parse_info (env := Sample.env) name_only_text = Ok root
            ∧ (absent_or_blank (Email.parsestr name_only_text) "Summary" →
               description root = "")
            ∧ (absent_or_blank (Email.parsestr name_only_text) "Author" →
               absent_or_blank (Email.parsestr name_only_text) "Maintainer" →
               authors root = []).
Proof.
  assert (valid_header_form (env := Sample.env) name_only_text)
    as Hvalid by (unfold valid_header_form; run).
  split; [exact Hvalid|].
  destruct (missing_fields_are_empty (env := Sample.env)
              name_only_text Hvalid) as (root & Hroot & Hfields).
  exists root. cbv zeta in Hfields. split; [exact Hroot|]. tauto.
Defined.

Lemma _load_dir_without_requires_txt_witness :
  bare_egg_info !! joinpath "demo.egg-info" "PKG-INFO" = Some name_only_text
  ∧ declared_requirements name_only_text = []
  ∧ bare_egg_info !! joinpath "demo.egg-info" "requires.txt" = None
  ∧ (∃ root, _parse_info (env := Sample.env) name_only_text = Ok root)
  ∧ _load_dir (env := Sample.env) bare_egg_info ["demo.egg-info"]
    = Raise (FileNotFoundError (joinpath "demo.egg-info" "requires.txt")).
Proof.
  assert (bare_egg_info !! joinpath "demo.egg-info" "PKG-INFO" = Some name_only_text)
    as Hpkg by run.
  assert (declared_requirements name_only_text = []) as Hdecl by run.
  assert (bare_egg_info !! joinpath "demo.egg-info" "requires.txt" = None)
    as Hreq by run.
  split_and!; try assumption;
    apply (_load_dir_without_requires_txt (env := Sample.env) bare_egg_info
             "demo.egg-info" name_only_text Hpkg Hdecl Hreq).
Defined.

Lemma _load_dir_skips_requires_txt_witness :
  requiring_egg_info !! joinpath "demo.egg-info" "PKG-INFO"
  = Some ("Name: demo" +:+ Str.nl +:+ "Requires: six" +:+ Str.nl)
  ∧ valid_header_form (env := Sample.env)
      ("Name: demo" +:+ Str.nl +:+ "Requires: six" +:+ Str.nl)
  ∧ declared_requirements ("Name: demo" +:+ Str.nl +:+ "Requires: six" +:+ Str.nl) ≠ []
  ∧ _load_dir (env := Sample.env) requiring_egg_info ["demo.egg-info"]
    = _parse_info (env := Sample.env)
        ("Name: demo" +:+ Str.nl +:+ "Requires: six" +:+ Str.nl)
  ∧ ∃ root, _parse_info (env := Sample.env)
              ("Name: demo" +:+ Str.nl +:+ "Requires: six" +:+ Str.nl) = Ok root
            ∧ dependencies root ≠ [].
Proof.
  assert (requiring_egg_info !! joinpath "demo.egg-info" "PKG-INFO"
          = Some ("Name: demo" +:+ Str.nl +:+ "Requires: six" +:+ Str.nl))
    as Hpkg by run.
  assert (valid_header_form (env := Sample.env)
            ("Name: demo" +:+ Str.nl +:+ "Requires: six" +:+ Str.nl))
    as Hvalid by (unfold valid_header_form; run).
  assert (declared_requirements
            ("Name: demo" +:+ Str.nl +:+ "Requires: six" +:+ Str.nl) ≠ [])
    as Hdecl by run.
  split_and!; try assumption;
    apply (_load_dir_skips_requires_txt (env := Sample.env) requiring_egg_info
             "demo.egg-info" _ Hpkg Hvalid Hdecl).
Defined.

Lemma load_egg_info_directory_witness :
  is_dir sample_storage (Path.normal "./demo.egg-info/") = true
  ∧ (∃ stem, Path.name "./demo.egg-info/" = stem +:+ ".egg-info")
  ∧ load (env := Sample.env) sample_storage "./demo.egg-info/"
    = _load_dir (env := Sample.env) (files sample_storage)
        [Path.normal "./demo.egg-info/"]
  ∧ ∀ st', files st' = files sample_storage →
           is_dir st' (Path.normal "./demo.egg-info/") = true →
           load (env := Sample.env) st' "./demo.egg-info/"
           = load (env := Sample.env) sample_storage "./demo.egg-info/".
Proof.
  assert (is_dir sample_storage (Path.normal "./demo.egg-info/") = true)
    as Hdir by run.
  assert (∃ stem, Path.name "./demo.egg-info/" = stem +:+ ".egg-info")
    as Hname by (exists "demo"; run).
  split; [exact Hdir|]. split; [exact Hname|].
  apply (load_egg_info_directory (env := Sample.env) sample_storage
           "./demo.egg-info/" Hdir Hname).
Defined.

Lemma load_searches_directory_witness :
  is_dir sample_storage (Path.normal "empty//") = true
  ∧ (¬ ∃ stem, Path.name "empty//" = stem +:+ ".egg-info")
  ∧ load (env := Sample.env) sample_storage "empty//"
    = match glob_egg_info sample_storage (Path.normal "empty//") with
      | [] => Raise (FileNotFoundError "cannot find egg-info")
      | [found] => _load_dir (env := Sample.env) (files sample_storage) [found]
      | _ => Raise (FileExistsError "too many egg-info")
      end.
Proof.
  assert (is_dir sample_storage (Path.normal "empty//") = true) as Hdir by run.
  assert (¬ ∃ stem, Path.name "empty//" = stem +:+ ".egg-info")
    as Hname.
  { intros Hends%endswith_spec. vm_compute in Hends. discriminate Hends. }
  split_and!; try assumption.
  apply (load_searches_directory (env := Sample.env) sample_storage
           "empty//" Hdir Hname).
Defined.

Lemma load_archive_witness :
  is_dir sample_storage (Path.normal "dist/./demo-1.0.tar.gz") = false
  ∧ archive_name (Path.name "dist/./demo-1.0.tar.gz")
  ∧ load (env := Sample.env) sample_storage "dist/./demo-1.0.tar.gz"
    = match _load_dir (env := Sample.env)
              (archive_files sample_storage (Path.normal "dist/./demo-1.0.tar.gz"))
              (archive_glob_egg_info sample_storage
                 (Path.normal "dist/./demo-1.0.tar.gz")) with
      | Ok root =>
          Ok (set_readme root
                (discover sample_storage (Path.normal "dist/./demo-1.0.tar.gz")))
      | Raise e => Raise e
      end.
Proof.
  assert (is_dir sample_storage (Path.normal "dist/./demo-1.0.tar.gz") = false)
    as Hdir by run.
  assert (archive_name (Path.name "dist/./demo-1.0.tar.gz"))
    as Hname.
  { exists "demo-1.0.tar", "gz". split_and!; run. }
  split_and!; try assumption.
  apply (load_archive (env := Sample.env) sample_storage
           "dist/./demo-1.0.tar.gz" Hdir Hname).
Defined.

Lemma load_text_file_witness :
  is_dir sample_storage (Path.normal "./notes/requires.txt") = false
  ∧ (¬ archive_name (Path.name "./notes/requires.txt"))
  ∧ load (env := Sample.env) sample_storage "./notes/requires.txt"
    = match files sample_storage !! Path.normal "./notes/requires.txt" with
      | Some content => loads (env := Sample.env) content
      | None => Raise (FileNotFoundError (Path.normal "./notes/requires.txt"))
      end.
Proof.
  assert (is_dir sample_storage (Path.normal "./notes/requires.txt") = false)
    as Hdir by run.
  assert (¬ archive_name (Path.name "./notes/requires.txt"))
    as Hname.
  { intros Hsuffix%suffix_is_archive. vm_compute in Hsuffix. not_listed Hsuffix. }
  split_and!; try assumption.
  apply (load_text_file (env := Sample.env) sample_storage
           "./notes/requires.txt" Hdir Hname).
Defined.

(** The sample places, loaded, however the path is spelled. *)
Example load_sample_directory :
  ∃ root, load (env := Sample.env) sample_storage "./demo.egg-info/" = Ok root
          ∧ load (env := Sample.env) sample_storage "demo.egg-info" = Ok root
          ∧ raw_name root = "demo"
          ∧ Dependency.name <$> dependencies root = ["six"; "requests"].
Proof. eexists. split_and!; [vm_compute; reflexivity..| |]; reflexivity. Qed.

Example load_sample_archive :
  ∃ root, load (env := Sample.env) sample_storage "dist/demo-1.0.tar.gz" = Ok root
          ∧ raw_name root = "demo"
          ∧ readme root = Some (Readme.mk "Read me")
          ∧ Dependency.name <$> dependencies root = ["six"; "requests"].
Proof. eexists. split; [vm_compute; reflexivity|]. by split_and!. Qed.

Example load_sample_requirements :
  ∃ root, load (env := Sample.env) sample_storage "./notes/requires.txt" = Ok root
          ∧ raw_name root = "root"
          ∧ Dependency.name <$> dependencies root = ["six"; "requests"].
Proof. eexists. split; [vm_compute; reflexivity|]. by split_and!. Qed.

Example load_empty_directory :
  load (env := Sample.env) sample_storage "./empty"
  = Raise (FileNotFoundError "cannot find egg-info").
Proof. reflexivity. Qed.

Lemma round_trip_dependencies_witness :
  one_line [six] sample_project
  ∧ Forall (λ d, Dependency.extras d = []) [six]
  ∧ Forall (λ d, Str.strip (_format_req d) ≠ UNKNOWN) [six]
  ∧ Forall (λ d, PackagingRequirement (Environment := Sample.env)
                   (Str.strip (_format_req d))
                 = Some (Requirement.mk (Dependency.name d) []
                           (Dependency.version d) (Dependency.markers d))) [six]
  ∧ NoDup (Dependency.name <$> [six])
  ∧ ∃ root, loads (env := Sample.env) (dumps [six] sample_project None) = Ok root
            ∧ Dependency.unsourced <$> dependencies root
              = Dependency.unsourced <$> [six]
            ∧ Forall (λ d, Dependency.source d = raw_name root) (dependencies root).
Proof.
  assert (one_line [six] sample_project) as Hone by (unfold one_line; run).
  assert (Forall (λ d, Dependency.extras d = []) [six]) as Hplain
    by (repeat constructor).
  assert (Forall (λ d, Str.strip (_format_req d) ≠ UNKNOWN) [six]) as Hsentinel
    by (repeat constructor; run).
  assert (Forall (λ d, PackagingRequirement (Environment := Sample.env)
                         (Str.strip (_format_req d))
                       = Some (Requirement.mk (Dependency.name d) []
                                 (Dependency.version d) (Dependency.markers d)))
            [six]) as Hgrammar by (repeat constructor).
  assert (NoDup (Dependency.name <$> [six])) as Hnames by run.
  split_and!; try assumption.
  apply (round_trip_dependencies (env := Sample.env) [six] sample_project None
           Hone Hplain Hsentinel Hgrammar Hnames).
Defined.

(** A dependency that does not come back: its requirement line is the
    sentinel, which the grammar of the examples would read as a name, and
    the line is dropped before the grammar sees it. *)
Example sentinel_dependency_is_lost :
  _format_req sentinel_dependency = UNKNOWN
  ∧ PackagingRequirement (Environment := Sample.env) UNKNOWN
    = Some (Requirement.mk "UNKNOWN" [] "" "")
  ∧ ∃ root, loads (env := Sample.env) (dumps [sentinel_dependency] demo None)
            = Ok root
            ∧ dependencies root = [].
Proof.
  split_and!; [reflexivity..|].
  eexists. split; [vm_compute; reflexivity|]. done.
Qed.
